(** * The dataset profiler of [flask_app.py]

    A shallow embedding of [analyze_dataframe] (and of the example loop of
    [streamlist.py]) together with the pandas operations it calls.

    Modelling conventions.
    - A [DataFrame] is what [pd.read_csv] builds: an index of row labels
      (integers or text; the default is [RangeIndex], the positions
      [0 .. N-1]) and an ordered list of named, typed columns.  Missing
      cells are NaN.
    - Python [str] values are [string]s, read as UTF-8 bytes.  The
      methods [str.lower] and [str.upper] of the Python runtime are
      parameters of the model ([str_lower], [str_upper]); [lower] and
      [upper] below are what they do on ASCII text.
    - A non-NaN [float64] cell is carried by its value, a rational, and
      by the text [str] prints for it.
    - [str.strip], [len] and slices work on bytes, which are the
      characters of ASCII text; where a statement depends on it, it
      asks for ASCII text.
    - Python [float] results (the percentages) are exact rationals [Q].
    - Code that can raise returns a [result]; [/] raises
      [ZeroDivisionError] on a zero divisor, [df[col]] and [df.loc] raise
      a key error on an unknown label, [int] raises [ValueError] on text
      that is no integer literal. *)

From Stdlib Require Import String Ascii Bool Arith ZArith QArith Lia.
From Stdlib Require Import DecimalString List Permutation Sorted.
Import ListNotations.
Local Open Scope string_scope.
Local Open Scope list_scope.
Local Open Scope nat_scope.

Set Implicit Arguments.

(* ------------------------------------------------------------------ *)
(** ** Exceptions *)

(** A row label: an [int] or a [str]. *)
Inductive label : Type :=
| LInt (z : Z)
| LStr (s : string).

Inductive exception : Type :=
| ZeroDivisionError
| KeyError (name : string)
| RowKeyError (row : label)
| ValueError
| TypeError.

Inductive result (A : Type) : Type :=
| Ok (a : A)
| Raise (e : exception).

Arguments Ok {A} a.
Arguments Raise {A} e.

Definition bind {A B} (m : result A) (k : A -> result B) : result B :=
  match m with
  | Ok a => k a
  | Raise e => Raise e
  end.

Notation "x <- m ;; k" := (bind m (fun x => k))
  (at level 61, m at next level, right associativity).

(** A list comprehension / [for] loop whose body may raise. *)
Fixpoint for_each {A B} (f : A -> result B) (l : list A) : result (list B) :=
  match l with
  | [] => Ok []
  | x :: xs => y <- f x ;; ys <- for_each f xs ;; Ok (y :: ys)
  end.

(** [[x for x in l if p(x)]] with a condition that may raise. *)
Fixpoint filter_each {A} (p : A -> result bool) (l : list A) : result (list A) :=
  match l with
  | [] => Ok []
  | x :: xs =>
      b <- p x ;; ys <- filter_each p xs ;; Ok (if b then x :: ys else ys)
  end.

(** A [for] loop threading its accumulators. *)
Fixpoint for_fold {A S} (body : S -> A -> result S) (l : list A) (s : S)
  : result S :=
  match l with
  | [] => Ok s
  | x :: xs => s' <- body s x ;; for_fold body xs s'
  end.

(* ------------------------------------------------------------------ *)
(** ** Python strings *)

Definition ascii_lower (c : ascii) : ascii :=
  let n := nat_of_ascii c in
  if (65 <=? n) && (n <=? 90) then ascii_of_nat (n + 32) else c.

Definition ascii_upper (c : ascii) : ascii :=
  let n := nat_of_ascii c in
  if (97 <=? n) && (n <=? 122) then ascii_of_nat (n - 32) else c.

Fixpoint map_chars (f : ascii -> ascii) (s : string) : string :=
  match s with
  | EmptyString => EmptyString
  | String c s' => String (f c) (map_chars f s')
  end.

(** [s.lower()] and [s.upper()] for ASCII [s]. *)
Definition lower (s : string) : string := map_chars ascii_lower s.
Definition upper (s : string) : string := map_chars ascii_upper s.



(** [s.isascii()]. *)
Fixpoint is_ascii (s : string) : bool :=
  match s with
  | EmptyString => true
  | String c s' => (nat_of_ascii c <? 128) && is_ascii s'
  end.

(** [q] occurs in [s] up to letter case: some substring of [s] equals
    [q] once both are case-folded. *)
Definition ci_substring (q s : string) : Prop :=
  exists pre mid post,
    s = (pre ++ mid ++ post)%string /\ lower mid = lower q.

(** [s.startswith(pre)]. *)
Fixpoint startswith (s pre : string) {struct pre} : bool :=
  match pre with
  | EmptyString => true
  | String a pre' =>
      match s with
      | EmptyString => false
      | String b s' => Ascii.eqb a b && startswith s' pre'
      end
  end.

(** [needle in hay]: [needle] starts at some position of [hay]. *)
Fixpoint str_in (needle hay : string) : bool :=
  startswith hay needle ||
  match hay with
  | EmptyString => false
  | String _ hay' => str_in needle hay'
  end.

(** Truthiness of a [str]. *)
Definition str_truthy (s : string) : bool :=
  match s with EmptyString => false | _ => true end.

(** [s[:n]], counted in bytes: in characters when [s] is ASCII. *)
Definition str_slice_to (n : nat) (s : string) : string := substring 0 n s.

(** [x in l] for a list of names. *)
Definition name_in (x : string) (l : list string) : bool :=
  existsb (String.eqb x) l.

(** [s.endswith(suffix)]: some tail of [s] is [suffix]. *)
Fixpoint endswith (s suffix : string) : bool :=
  String.eqb s suffix ||
  match s with
  | EmptyString => false
  | String _ s' => endswith s' suffix
  end.

(** The ASCII characters [str.isspace] accepts. *)
Definition is_space (c : ascii) : bool :=
  let n := nat_of_ascii c in
  ((9 <=? n) && (n <=? 13)) || ((28 <=? n) && (n <=? 32)).

Fixpoint lstrip (s : string) : string :=
  match s with
  | EmptyString => EmptyString
  | String c s' => if is_space c then lstrip s' else s
  end.

Fixpoint rstrip (s : string) : string :=
  match s with
  | EmptyString => EmptyString
  | String c s' =>
      match rstrip s' with
      | EmptyString => if is_space c then EmptyString else String c EmptyString
      | r => String c r
      end
  end.

(** [s.strip()] for ASCII [s]. *)
Definition strip (s : string) : string := rstrip (lstrip s).

Fixpoint all_space (s : string) : bool :=
  match s with
  | EmptyString => true
  | String c s' => is_space c && all_space s'
  end.

(** The value of an ASCII decimal digit. *)
Definition digit_of (c : ascii) : option Z :=
  let n := nat_of_ascii c in
  if (48 <=? n) && (n <=? 57) then Some (Z.of_nat (n - 48)) else None.

(** The digits of an integer literal: at least one, with single
    underscores allowed between two digits. *)
Fixpoint parse_digits (acc : Z) (after_digit : bool) (s : string) : option Z :=
  match s with
  | EmptyString => if after_digit then Some acc else None
  | String c s' =>
      match digit_of c with
      | Some d => parse_digits (10 * acc + d)%Z true s'
      | None =>
          if Ascii.eqb c "_" && after_digit then
            match s' with
            | String c' _ =>
                match digit_of c' with
                | Some _ => parse_digits acc false s'
                | None => None
                end
            | EmptyString => None
            end
          else None
      end
  end.

(** [int(s)] for a [str]: white space around, an optional sign, then
    the digits (ASCII digits and white space). *)
Definition int_of_str (s : string) : option Z :=
  match strip s with
  | String "+" r => parse_digits 0%Z false r
  | String "-" r => option_map Z.opp (parse_digits 0%Z false r)
  | t => parse_digits 0%Z false t
  end.

(* ------------------------------------------------------------------ *)
(** ** Cells, series and frames *)

(** A cell.  A float that is not NaN has its value and the text [str]
    prints for it ([0.0] and [-0.0] have one value and two texts). *)
Inductive cell : Type :=
| CNaN
| CInt (z : Z)
| CFloat (value : Q) (repr : string)
| CBool (b : bool)
| CStr (s : string).

Inductive dtype : Type := Int64 | Float64 | BoolT | Object.

(** A column is typed by construction; only [float64] and [object]
    columns can hold NaN. *)
Inductive series : Type :=
| SInt (v : list Z)
| SFloat (v : list (option (Q * string)))
| SBool (v : list bool)
| SObject (v : list (option string)).

Definition opt_cell {A} (mk : A -> cell) (o : option A) : cell :=
  match o with Some s => mk s | None => CNaN end.

Definition values (s : series) : list cell :=
  match s with
  | SInt v => map CInt v
  | SFloat v => map (opt_cell (fun f => CFloat (fst f) (snd f))) v
  | SBool v => map CBool v
  | SObject v => map (opt_cell CStr) v
  end.

Definition series_dtype (s : series) : dtype :=
  match s with
  | SInt _ => Int64
  | SFloat _ => Float64
  | SBool _ => BoolT
  | SObject _ => Object
  end.

(** [str(dtype)]. *)
Definition dtype_str (d : dtype) : string :=
  match d with
  | Int64 => "int64"
  | Float64 => "float64"
  | BoolT => "bool"
  | Object => "object"
  end.

(** Two cells hold the same value, as [duplicated] compares them: NaN
    equals NaN, and floats are equal by value, whatever their text. *)
Inductive same_value : cell -> cell -> Prop :=
| same_nan : same_value CNaN CNaN
| same_int (z : Z) : same_value (CInt z) (CInt z)
| same_float (x y : Q) (r1 r2 : string) :
    (x == y)%Q -> same_value (CFloat x r1) (CFloat y r2)
| same_bool (b : bool) : same_value (CBool b) (CBool b)
| same_str (s : string) : same_value (CStr s) (CStr s).

Definition cell_eqb (a b : cell) : bool :=
  match a, b with
  | CNaN, CNaN => true
  | CInt x, CInt y => Z.eqb x y
  | CFloat x _, CFloat y _ => Qeq_bool x y
  | CBool x, CBool y => Bool.eqb x y
  | CStr x, CStr y => String.eqb x y
  | _, _ => false
  end.

(** [pd.isnull] / [pd.notna] on one cell. *)
Definition isnull (c : cell) : bool :=
  match c with CNaN => true | _ => false end.

Definition notna (c : cell) : bool := negb (isnull c).

(** [str(cell)], which is also what [astype(str)] stores. *)
Definition cell_str (c : cell) : string :=
  match c with
  | CNaN => "nan"
  | CInt z => NilZero.string_of_int (Z.to_int z)
  | CFloat _ r => r
  | CBool true => "True"
  | CBool false => "False"
  | CStr s => s
  end.

Record DataFrame : Type := mkDataFrame {
  df_index : list label;                (* df.index, one label per row *)
  columns : list (string * series)      (* in column order *)
}.

(** [len(df.index)]. *)
Definition index_len (df : DataFrame) : nat := length (df_index df).

(** [pd.RangeIndex(n)], the default index. *)
Definition RangeIndex (n : nat) : list label :=
  map (fun i => LInt (Z.of_nat i)) (seq 0 n).

(** The invariants pandas maintains for a frame read from CSV: every
    column is as long as the index, and column names are unique. *)
Definition rectangular (df : DataFrame) : Prop :=
  Forall (fun c => length (values (snd c)) = index_len df) (columns df) /\
  NoDup (map fst (columns df)).

(** A well-formed frame: rectangular, with unique row labels. *)
Definition well_formed (df : DataFrame) : Prop :=
  rectangular df /\ NoDup (df_index df).

Definition df_columns (df : DataFrame) : list string := map fst (columns df).

(** [df.shape]. *)
Definition shape (df : DataFrame) : nat * nat :=
  (index_len df, length (columns df)).

(** [df.empty]. *)
Definition df_empty (df : DataFrame) : bool :=
  (index_len df =? 0) || (length (columns df) =? 0).

(** [df[col]]. *)
Fixpoint lookup_column (col : string) (cs : list (string * series))
  : result series :=
  match cs with
  | [] => Raise (KeyError col)
  | (n, s) :: cs' => if String.eqb col n then Ok s else lookup_column col cs'
  end.

Definition getitem (df : DataFrame) (col : string) : result series :=
  lookup_column col (columns df).

(** [bool_series.sum()]. *)
Definition count_true (l : list bool) : nat := length (filter (fun b => b) l).

(** [series.isnull().sum()] and [series.notna().sum()]. *)
Definition isnull_sum (s : series) : nat := count_true (map isnull (values s)).
Definition notna_sum (s : series) : nat := count_true (map notna (values s)).

(** [series.notna().all()]. *)
Definition notna_all (s : series) : bool := forallb (fun b => b) (map notna (values s)).

(** [df.isnull().sum()]: one count per column, in column order. *)
Definition df_isnull_sum (df : DataFrame) : list (string * nat) :=
  map (fun c => (fst c, isnull_sum (snd c))) (columns df).

Fixpoint sum_nat (l : list nat) : nat :=
  match l with
  | [] => 0
  | x :: xs => x + sum_nat xs
  end.

(** Row [i] of the frame: one cell per column. *)
Definition row_at (df : DataFrame) (i : nat) : list cell :=
  map (fun c => nth i (values (snd c)) CNaN) (columns df).

Definition rows (df : DataFrame) : list (list cell) :=
  map (row_at df) (seq 0 (index_len df)).

Fixpoint row_eqb (r1 r2 : list cell) : bool :=
  match r1, r2 with
  | [], [] => true
  | a :: r1', b :: r2' => cell_eqb a b && row_eqb r1' r2'
  | _, _ => false
  end.

(** The scan of [duplicated(keep="first")]: a row is flagged when an
    equal row has been seen before it. *)
Fixpoint duplicated_scan (seen : list (list cell)) (rs : list (list cell))
  : list bool :=
  match rs with
  | [] => []
  | r :: rs' => existsb (row_eqb r) seen :: duplicated_scan (r :: seen) rs'
  end.

(** [df.duplicated()]; pandas returns an empty mask for an empty frame. *)
Definition duplicated (df : DataFrame) : list bool :=
  if df_empty df then [] else duplicated_scan [] (rows df).

(** [a / b] on Python ints. *)
Definition truediv (a b : nat) : result Q :=
  if b =? 0 then Raise ZeroDivisionError
  else Ok (inject_Z (Z.of_nat a) / inject_Z (Z.of_nat b))%Q.

(** [list.sort(key=..., reverse=True)]: stable, descending by key.
    Insertion from the right keeps earlier elements first among ties. *)
Section SortDesc.
Variable A : Type.
Variable key : A -> nat.

Fixpoint insert_desc (x : A) (l : list A) : list A :=
    match l with
    | [] => [x]
    | y :: ys => if key y <=? key x then x :: y :: ys else y :: insert_desc x ys
    end.

Fixpoint sort_desc (l : list A) : list A :=
    match l with
    | [] => []
    | x :: xs => insert_desc x (sort_desc xs)
    end.

  (** The order the sort establishes: keys never increase. *)
Definition desc (a b : A) : Prop := key b <= key a.
End SortDesc.

(** The positions where a mask holds, in increasing order. *)
Fixpoint where_true_from (i : nat) (mask : list bool) : list nat :=
  match mask with
  | [] => []
  | b :: mask' =>
      if b then i :: where_true_from (S i) mask' else where_true_from (S i) mask'
  end.

Definition where_true (mask : list bool) : list nat := where_true_from 0 mask.

(** [l[mask]]: the elements where the mask holds. *)
Fixpoint select {A} (mask : list bool) (l : list A) : list A :=
  match mask, l with
  | b :: mask', x :: l' => if b then x :: select mask' l' else select mask' l'
  | _, _ => []
  end.

Definition label_eqb (a b : label) : bool :=
  match a, b with
  | LInt x, LInt y => Z.eqb x y
  | LStr x, LStr y => String.eqb x y
  | _, _ => false
  end.

(** The position of a label in the index. *)
Fixpoint position_of (idx : label) (labels : list label) : option nat :=
  match labels with
  | [] => None
  | l :: labels' =>
      if label_eqb idx l then Some 0 else option_map S (position_of idx labels')
  end.

(** [df.loc[idx, col]] for a label the index holds once. *)
Definition loc (df : DataFrame) (idx : label) (col : string) : result cell :=
  s <- getitem df col ;;
  match position_of idx (df_index df) with
  | Some i =>
      match nth_error (values s) i with
      | Some c => Ok c
      | None => Raise (RowKeyError idx)
      end
  | None => Raise (RowKeyError idx)
  end.

(** [int(idx)] for a row label. *)
Definition py_int (idx : label) : result Z :=
  match idx with
  | LInt z => Ok z
  | LStr s =>
      match int_of_str s with
      | Some z => Ok z
      | None => Raise ValueError
      end
  end.

(** [idx + 1] for a row label; [str + int] is a [TypeError]. *)
Definition label_succ (idx : label) : result Z :=
  match idx with
  | LInt z => Ok (z + 1)%Z
  | LStr _ => Raise TypeError
  end.

(** [series.astype(str)]. *)
Definition astype_str (s : series) : list string := map cell_str (values s).

(** [re.compile(pat, re.IGNORECASE).match(x)] for a pattern made of
    ordinary characters and [.]: a dot takes any character but a newline,
    any other character takes itself in either case.  Patterns with
    further metacharacters are outside this model. *)
Fixpoint re_match (pat x : string) {struct pat} : bool :=
  match pat with
  | EmptyString => true
  | String p pat' =>
      match x with
      | EmptyString => false
      | String c x' =>
          (if Ascii.eqb p "." then negb (Ascii.eqb c (ascii_of_nat 10))
           else Ascii.eqb (ascii_lower p) (ascii_lower c))
          && re_match pat' x'
      end
  end.

(** [... .search(x) is not None]: a match starting at some position. *)
Fixpoint re_search (pat x : string) : bool :=
  re_match pat x ||
  match x with
  | EmptyString => false
  | String _ x' => re_search pat x'
  end.

(** [text.str.contains(pat, case=False, na=False)], with pandas' default
    [regex=True], on that fragment of patterns. *)
Definition str_contains_regex_nocase (pat : string) (text : list string)
  : list bool :=
  map (re_search pat) text.

(* ------------------------------------------------------------------ *)
(** ** The dataclasses of [flask_app.py] *)

Module ColumnStatus.
Record t : Type := mk {
    name : string;
    is_complete : bool;
    complete_count : nat;
    missing_count : nat;
    completion_rate : Q;
    dtype : string
  }.
End ColumnStatus.

Module WordResult.
Record t : Type := mk {
    name : string;
    count : nat;
    percentage : Q
  }.
End WordResult.

Module WordExample.
Record t : Type := mk {
    name : string;
    row_number : Z;
    value : string
  }.
End WordExample.

Module MissingBreakdown.
Record t : Type := mk {
    name : string;
    missing_count : nat;
    percentage : Q
  }.
End MissingBreakdown.

Record DatasetStats : Type := mkDatasetStats {
  num_rows : nat;
  num_columns : nat;
  num_duplicates : nat;
  total_missing : nat;
  missing_percentage : Q;
  complete_columns_count : nat;
  complete_columns : list string;
  all_columns : list ColumnStatus.t;
  filtered_columns : list ColumnStatus.t;
  column_names : list string;
  dtypes : list (string * string);
  missing_breakdown : list MissingBreakdown.t;
  word_results : list WordResult.t;
  word_examples : list WordExample.t;
  word_total_occurrences : nat
}.

Definition EXCLUDED_COLUMNS : list string :=
  [ "CreatedAt"; "ModifiedAt"; "DeletedAt"; "IsDeleted";
    "CreatedById"; "ModifiedById"; "DeletedById"; "Governorate" ].

Ltac wf_by_computation :=
  split;
  [ split;
    [ repeat constructor
    | repeat (constructor; [simpl; intuition discriminate|]); constructor ]
  | repeat (constructor; [simpl; intuition discriminate|]); constructor ].

Ltac int_labels_by_computation :=
  repeat (constructor; [eexists; reflexivity|]); constructor.

(* ------------------------------------------------------------------ *)
(** ** [analyze_dataframe] *)

Section Runtime.

(** [str.lower] and [str.upper] of the Python runtime. *)
Variable str_lower : string -> string.
Variable str_upper : string -> string.

(** The runtime's methods are what [lower] and [upper] say on ASCII
    text. *)
Definition ascii_exact : Prop :=
  (forall s, is_ascii s = true -> str_lower s = lower s) /\
  (forall s, is_ascii s = true -> str_upper s = upper s).

(** [text.str.contains(pat, case=False, na=False, regex=False)]: pandas
    upper-cases the pattern and every element and tests [in]. *)
Definition str_contains_nocase (pat : string) (text : list string) : list bool :=
  let upper_pat := str_upper pat in
  map (fun x => str_in upper_pat (str_upper x)) text.

(** [(a / b * 100) if b else 0.0]. *)
Definition percent_if (a b : nat) : result Q :=
  if negb (b =? 0) then q <- truediv a b ;; Ok (q * 100)%Q else Ok 0%Q.

(** The three accumulators of the word-search loop. *)
Record word_state : Type := mkWordState {
  st_results : list WordResult.t;
  st_examples : list WordExample.t;
  st_total : nat
}.

(** One iteration of [for col in columns_to_check] under [if word_query]. *)
Definition word_search_step (df : DataFrame) (lowered_word : string)
    (st : word_state) (col : string) : result word_state :=
  s <- getitem df col ;;
  let series_text := astype_str s in
  let matches := str_contains_nocase lowered_word series_text in
  let count := count_true matches in
  if 0 <? count then
    percentage <- percent_if count (fst (shape df)) ;;
    let matched_indices := firstn 3 (select matches (df_index df)) in
    examples <- for_each
                  (fun idx =>
                     v <- loc df idx col ;;
                     n <- py_int idx ;;
                     Ok (WordExample.mk col (n + 1)%Z (cell_str v)))
                  matched_indices ;;
    Ok (mkWordState
          (st_results st ++ [WordResult.mk col count percentage])
          (st_examples st ++ examples)
          (st_total st + count))
  else Ok st.

(** One iteration of the loop that fills [all_columns]. *)
Definition column_status (df : DataFrame) (col : string)
  : result ColumnStatus.t :=
  s <- getitem df col ;;
  let missing_count := isnull_sum s in
  let complete_count := notna_sum s in
  completion_rate <- percent_if complete_count (fst (shape df)) ;;
  Ok (ColumnStatus.mk col (missing_count =? 0) complete_count missing_count
        completion_rate (dtype_str (series_dtype s))).

(** The body of [analyze_dataframe], with the module global it reads
    ([EXCLUDED_COLUMNS]) made an argument. *)
Definition analyze_dataframe_with (excluded : list string) (df : DataFrame)
    (column_query word_query : string) : result DatasetStats :=
  let '(num_rows, num_columns) := shape df in
  let num_duplicates := count_true (duplicated df) in
  let missing_data := df_isnull_sum df in
  let total_missing := sum_nat (map snd missing_data) in
  let total_cells := num_rows * num_columns in
  missing_percentage <- percent_if total_missing total_cells ;;
  let columns_to_check :=
    filter (fun col => negb (name_in col excluded)) (df_columns df) in
  complete_columns <-
    filter_each (fun col => s <- getitem df col ;; Ok (notna_all s))
      columns_to_check ;;
  let complete_columns_count := length complete_columns in
  all_columns <- for_each (column_status df) columns_to_check ;;
  let filtered_columns :=
    if str_truthy column_query then
      filter (fun status =>
                str_in (str_lower column_query)
                  (str_lower (ColumnStatus.name status)))
        all_columns
    else [] in
  missing_breakdown <-
    for_each (fun item =>
                p <- percent_if (snd item) num_rows ;;
                Ok (MissingBreakdown.mk (fst item) (snd item) p))
      (filter (fun item => 0 <? snd item) missing_data) ;;
  let missing_breakdown :=
    sort_desc MissingBreakdown.missing_count missing_breakdown in
  st <- (if str_truthy word_query then
           let lowered_word := str_lower word_query in
           st <- for_fold (word_search_step df lowered_word) columns_to_check
                   (mkWordState [] [] 0) ;;
           Ok (mkWordState
                 (sort_desc WordResult.count (st_results st))
                 (firstn 10 (st_examples st))
                 (st_total st))
         else Ok (mkWordState [] [] 0)) ;;
  Ok (mkDatasetStats num_rows num_columns num_duplicates total_missing
        missing_percentage complete_columns_count complete_columns
        all_columns filtered_columns (df_columns df)
        (map (fun c => (fst c, dtype_str (series_dtype (snd c)))) (columns df))
        missing_breakdown (st_results st) (st_examples st) (st_total st)).

Definition analyze_dataframe (df : DataFrame) (column_query word_query : string)
  : result DatasetStats :=
  analyze_dataframe_with EXCLUDED_COLUMNS df column_query word_query.

(** The counting loop of [streamlist.py] (lines 181-196): per checked
    column the number of cells its mask selects, kept when positive, and
    the running total.  The mask function is an argument; the script
    passes [str.contains(word_search, case=False, na=False)]. *)
Definition streamlit_word_results (contains : list string -> list bool)
    (excluded : list string) (df : DataFrame)
  : result (list (string * nat) * nat) :=
  let columns_to_check :=
    filter (fun col => negb (name_in col excluded)) (df_columns df) in
  for_fold
    (fun acc col =>
       s <- getitem df col ;;
       let col_text := astype_str s in
       let matches := contains col_text in
       let count := count_true matches in
       if 0 <? count then Ok (fst acc ++ [(col, count)], snd acc + count)
       else Ok acc)
    columns_to_check ([], 0).

(** The example loop of [streamlist.py] (lines 225-239), over the same
    mask function. *)
Definition example_rows (contains : list string -> list bool)
    (excluded : list string) (df : DataFrame)
  : result (list WordExample.t) :=
  let columns_to_check :=
    filter (fun col => negb (name_in col excluded)) (df_columns df) in
  rows <- for_fold
            (fun acc col =>
               s <- getitem df col ;;
               let matches := contains (astype_str s) in
               if existsb (fun b => b) matches then
                 let matched_indices :=
                   firstn 3 (select matches (df_index df)) in
                 ex <- for_each
                         (fun idx =>
                            n <- label_succ idx ;;
                            v <- loc df idx col ;;
                            Ok (WordExample.mk col n
                                  (str_slice_to 100 (cell_str v))))
                         matched_indices ;;
                 Ok (acc ++ ex)
               else Ok acc)
            columns_to_check [] ;;
  Ok (firstn 10 rows).

(* ------------------------------------------------------------------ *)
(** ** A closed form of the profile

    For a well-formed frame no lookup fails and every division is
    guarded, so when [analyze_dataframe_with] returns, it returns the
    record below, and it returns whenever every row label it converts
    is an integer.  The claims are proved on the source model through
    these two facts. *)

(** Columns that survive the exclusion list, with their data. *)
Definition included (excluded : list string) (df : DataFrame)
  : list (string * series) :=
  filter (fun c => negb (name_in (fst c) excluded)) (columns df).

Definition pct (a b : nat) : Q :=
  if b =? 0 then 0%Q
  else (inject_Z (Z.of_nat a) / inject_Z (Z.of_nat b) * 100)%Q.

Definition status_of (n : nat) (c : string * series) : ColumnStatus.t :=
  ColumnStatus.mk (fst c) (isnull_sum (snd c) =? 0) (notna_sum (snd c))
    (isnull_sum (snd c)) (pct (notna_sum (snd c)) n)
    (dtype_str (series_dtype (snd c))).

(** The per-cell test behind the mask of the word search. *)
Definition cell_matches (word_query : string) (c : cell) : bool :=
  str_in (str_upper (str_lower word_query)) (str_upper (cell_str c)).

Definition match_mask (word_query : string) (s : series) : list bool :=
  map (cell_matches word_query) (values s).

Definition match_count (word_query : string) (s : series) : nat :=
  count_true (match_mask word_query s).

(** The label of row [i]. *)
Definition row_label (df : DataFrame) (i : nat) : label :=
  nth i (df_index df) (LInt 0).

(** [int(idx)] where it returns. *)
Definition label_number (idx : label) : Z :=
  match py_int idx with Ok z => z | Raise _ => 0%Z end.

Definition column_examples (df : DataFrame) (word_query : string)
    (c : string * series) : list WordExample.t :=
  map (fun i =>
         WordExample.mk (fst c) (label_number (row_label df i) + 1)%Z
           (cell_str (nth i (values (snd c)) CNaN)))
    (firstn 3 (where_true (match_mask word_query (snd c)))).

Definition column_result (n : nat) (word_query : string) (c : string * series)
  : list WordResult.t :=
  if 0 <? match_count word_query (snd c)
  then [WordResult.mk (fst c) (match_count word_query (snd c))
          (pct (match_count word_query (snd c)) n)]
  else [].

Definition breakdown_of (n : nat) (c : string * series) : MissingBreakdown.t :=
  MissingBreakdown.mk (fst c) (isnull_sum (snd c)) (pct (isnull_sum (snd c)) n).

Definition profile (excluded : list string) (df : DataFrame)
    (column_query word_query : string) : DatasetStats :=
  let n := index_len df in
  let inc := included excluded df in
  let total := sum_nat (map (fun c => isnull_sum (snd c)) (columns df)) in
  let statuses := map (status_of n) inc in
  mkDatasetStats n (length (columns df)) (count_true (duplicated df)) total
    (pct total (n * length (columns df)))
    (length (filter (fun c => notna_all (snd c)) inc))
    (map fst (filter (fun c => notna_all (snd c)) inc))
    statuses
    (if str_truthy column_query then
       filter (fun status =>
                 str_in (str_lower column_query)
                   (str_lower (ColumnStatus.name status)))
         statuses
     else [])
    (df_columns df)
    (map (fun c => (fst c, dtype_str (series_dtype (snd c)))) (columns df))
    (sort_desc MissingBreakdown.missing_count
       (map (breakdown_of n)
          (filter (fun c => 0 <? isnull_sum (snd c)) (columns df))))
    (if str_truthy word_query then
       sort_desc WordResult.count (flat_map (column_result n word_query) inc)
     else [])
    (if str_truthy word_query then
       firstn 10 (flat_map (column_examples df word_query) inc)
     else [])
    (if str_truthy word_query then
       sum_nat (map (fun c => match_count word_query (snd c)) inc)
     else 0).

(** The word-search loop body without its lookups. *)
Definition word_step (df : DataFrame) (word_query : string) (st : word_state)
    (c : string * series) : word_state :=
  if 0 <? match_count word_query (snd c)
  then mkWordState
         (st_results st ++ column_result (index_len df) word_query c)
         (st_examples st ++ column_examples df word_query c)
         (st_total st + match_count word_query (snd c))
  else st.

(** Every row label is an [int], as in a [RangeIndex]. *)
Definition int_labels (df : DataFrame) : Prop :=
  Forall (fun l => exists z, l = LInt z) (df_index df).

(** Every cell of the frame prints as ASCII text, so that the length of
    its string is its number of characters. *)
Definition ascii_cells (df : DataFrame) : Prop :=
  Forall (fun c => Forall (fun v => is_ascii (cell_str v) = true)
                     (values (snd c)))
    (columns df).

(* ------------------------------------------------------------------ *)
(** ** More of pandas and [re] *)

(** [series.head(n)]. *)
Definition series_head (n : nat) (s : series) : series :=
  match s with
  | SInt v => SInt (firstn n v)
  | SFloat v => SFloat (firstn n v)
  | SBool v => SBool (firstn n v)
  | SObject v => SObject (firstn n v)
  end.

(** [df.head(n)]. *)
Definition head (n : nat) (df : DataFrame) : DataFrame :=
  mkDataFrame (firstn n (df_index df))
    (map (fun c => (fst c, series_head n (snd c))) (columns df)).

(** The metacharacters of Python's [re]. *)
Definition regex_meta : list ascii :=
  [ "."; "^"; "$"; "*"; "+"; "?"; "{"; "}"; "["; "]"; "\"; "|"; "("; ")" ]%char.

(** A pattern [re] reads as a plain word. *)
Fixpoint plain_pattern (pat : string) : bool :=
  match pat with
  | EmptyString => true
  | String c pat' =>
      negb (existsb (Ascii.eqb c) regex_meta) && plain_pattern pat'
  end.

(* ------------------------------------------------------------------ *)
(** ** The dataset store of [flask_app.py] *)

(** A Python [dict] with [str] keys, in insertion order. *)
Definition dict (V : Type) : Type := list (string * V).

(** [d.get(k)]. *)
Fixpoint dict_get {V} (k : string) (d : dict V) : option V :=
  match d with
  | [] => None
  | (k', v) :: d' => if String.eqb k k' then Some v else dict_get k d'
  end.

(** [k in d]. *)
Definition dict_mem {V} (k : string) (d : dict V) : bool :=
  match dict_get k d with Some _ => true | None => false end.

(** [d.pop(k, None)], keeping the dict. *)
Fixpoint dict_pop {V} (k : string) (d : dict V) : dict V :=
  match d with
  | [] => []
  | (k', v) :: d' =>
      if String.eqb k k' then dict_pop k d' else (k', v) :: dict_pop k d'
  end.

(** [d[k] = v]: an existing key keeps its place, a new one goes last. *)
Fixpoint dict_set {V} (k : string) (v : V) (d : dict V) : dict V :=
  match d with
  | [] => [(k, v)]
  | (k', v') :: d' =>
      if String.eqb k k' then (k, v) :: d' else (k', v') :: dict_set k v d'
  end.

(** What the handlers read and write: the ["upload_id"] entry of the
    request's [session] and the module global [DATASETS]. *)
Record world : Type := mkWorld {
  session_upload_id : option string;
  DATASETS : dict DataFrame
}.

Definition _get_dataset (w : world) : option DataFrame :=
  match session_upload_id w with
  | None => None
  | Some upload_id =>
      if negb (str_truthy upload_id) then None
      else dict_get upload_id (DATASETS w)
  end.

(** [upload_id] is the fresh [str(uuid.uuid4())]. *)
Definition _set_dataset (df : DataFrame) (upload_id : string) (w : world)
  : world :=
  let old_id := session_upload_id w in
  let datasets :=
    match old_id with
    | Some old =>
        if str_truthy old && dict_mem old (DATASETS w)
        then dict_pop old (DATASETS w)
        else DATASETS w
    | None => DATASETS w
    end in
  mkWorld (Some upload_id) (dict_set upload_id df datasets).

Definition _clear_dataset (w : world) : world :=
  match session_upload_id w with
  | Some upload_id =>
      if str_truthy upload_id
      then mkWorld None (dict_pop upload_id (DATASETS w))
      else mkWorld None (DATASETS w)
  | None => mkWorld None (DATASETS w)
  end.

(* ------------------------------------------------------------------ *)
(** ** The routes of [flask_app.py] *)

Inductive http_method : Type := GET | POST.

(** The uploaded file: its name and what [pd.read_csv] makes of it,
    [None] when [read_csv] raises. *)
Record upload : Type := mkUpload {
  filename : string;
  read_csv : option DataFrame
}.

Record request : Type := mkRequest {
  method : http_method;
  file : option upload;               (* request.files.get("file") *)
  column_search : string;             (* request.args.get(..., "") *)
  word_search : string
}.

(** The flashed messages, by what they say. *)
Inductive flash_message : Type :=
| ChooseValidCsv
| OnlyCsvAllowed
| CouldNotRead
| FileHasNoData
| UploadedAndAnalyzed
| FileDeleted.

(** The category each [flash] call passes. *)
Definition flash_category (m : flash_message) : string :=
  match m with
  | ChooseValidCsv => "warning"
  | OnlyCsvAllowed => "danger"
  | CouldNotRead => "danger"
  | FileHasNoData => "warning"
  | UploadedAndAnalyzed => "success"
  | FileDeleted => "info"
  end.

(** A response: a redirect to [index] after a flash, or the rendered
    template with its arguments ([preview] is the frame handed to
    [to_html]). *)
Inductive response : Type :=
| Redirect (flashed : flash_message)
| Render (stats : option DatasetStats) (preview : option DataFrame)
    (column_query word_query : string).

Definition index (req : request) (new_id : string) (w : world)
  : result (response * world) :=
  match method req with
  | POST =>
      match file req with
      | None => Ok (Redirect ChooseValidCsv, w)
      | Some f =>
          if negb (str_truthy (filename f)) then Ok (Redirect ChooseValidCsv, w)
          else if negb (endswith (lower (filename f)) ".csv")
          then Ok (Redirect OnlyCsvAllowed, w)
          else
            match read_csv f with
            | None => Ok (Redirect CouldNotRead, w)
            | Some df =>
                if df_empty df then Ok (Redirect FileHasNoData, w)
                else Ok (Redirect UploadedAndAnalyzed, _set_dataset df new_id w)
            end
      end
  | GET =>
      let df := _get_dataset w in
      let column_query := strip (column_search req) in
      let word_query := strip (word_search req) in
      match df with
      | Some df =>
          stats <- analyze_dataframe df column_query word_query ;;
          Ok (Render (Some stats) (Some (head 10 df)) column_query word_query,
              w)
      | None => Ok (Render None None column_query word_query, w)
      end
  end.

Definition reset (w : world) : response * world :=
  (Redirect FileDeleted, _clear_dataset w).

(* ------------------------------------------------------------------ *)
(** ** More of [streamlist.py] *)

(** [[col for col in excluded_columns if col in df.columns]] (line 162). *)
Definition excluded_found (excluded : list string) (df : DataFrame)
  : list string :=
  filter (fun col => name_in col (df_columns df)) excluded.

(** The counting loop (lines 181-196) with its percentage, before the
    [.2f] formatting: [count / len(df) * 100] is computed unguarded. *)
Definition streamlit_word_table (contains : list string -> list bool)
    (excluded : list string) (df : DataFrame)
  : result (list (string * nat * Q) * nat) :=
  let columns_to_check :=
    filter (fun col => negb (name_in col excluded)) (df_columns df) in
  for_fold
    (fun acc col =>
       s <- getitem df col ;;
       let col_text := astype_str s in
       let matches := contains col_text in
       let count := count_true matches in
       if 0 <? count then
         q <- truediv count (index_len df) ;;
         Ok (fst acc ++ [(col, count, (q * 100)%Q)], snd acc + count)
       else Ok acc)
    columns_to_check ([], 0).

(* ------------------------------------------------------------------ *)
(** ** Frames used as examples *)

(** The three-row frame of the specification's scenarios. *)
Definition scenario_df : DataFrame :=
  mkDataFrame (RangeIndex 3)
    [ ("A", SFloat [Some (1%Q, "1.0"); None; Some (1%Q, "1.0")]);
      ("B", SObject [Some "x"; Some "y"; Some "x"]) ].

(** One row, nothing missing. *)
Definition one_row_df : DataFrame :=
  mkDataFrame (RangeIndex 1) [ ("A", SInt [7%Z]) ].

(** One row, one column, its only cell missing. *)
Definition all_nan_df : DataFrame :=
  mkDataFrame (RangeIndex 1) [ ("A", SFloat [None]) ].

(** Two columns and no row. *)
Definition no_rows_df : DataFrame :=
  mkDataFrame (RangeIndex 0) [ ("A", SFloat []); ("B", SObject []) ].

(** Missing counts 1, 2, 1 with an excluded column among them. *)
Definition ties_df : DataFrame :=
  mkDataFrame (RangeIndex 2)
    [ ("Id", SInt [1%Z; 2%Z]);
      ("Name", SObject [None; Some "b"]);
      ("DeletedAt", SFloat [None; None]);
      ("City", SObject [Some "x"; None]) ].

(** Four columns with 4, 2, 4 and 4 cells containing "x". *)
Definition many_matches_df : DataFrame :=
  mkDataFrame (RangeIndex 4)
    [ ("P", SObject [Some "ax"; Some "x"; Some "xx"; Some "X"]);
      ("Q", SObject [Some "x"; None; Some "y"; Some "x"]);
      ("R", SObject [Some "x1"; Some "x2"; Some "x3"; Some "x4"]);
      ("S", SObject [Some "x"; Some "x"; Some "x"; Some "x"]) ].

(** Rows 2 and 3 repeat rows 0 and 1; the zeros differ in sign only. *)
Definition repeats_df : DataFrame :=
  mkDataFrame (RangeIndex 4)
    [ ("A", SFloat [Some (0%Q, "0.0"); None; Some (0%Q, "-0.0"); None]);
      ("B", SObject [Some "x"; Some "y"; Some "x"; Some "y"]) ].

(** What [read_csv] makes of the text
    [a,b / x,1,2 / y,3,4]: the rows have one field more than the header,
    so the first field of each row becomes its label. *)
Definition text_index_df : DataFrame :=
  mkDataFrame [LStr "x"; LStr "y"]
    [ ("a", SInt [1%Z; 3%Z]); ("b", SInt [2%Z; 4%Z]) ].

(** Integer labels that are not the positions. *)
Definition sparse_index_df : DataFrame :=
  mkDataFrame [LInt 4; LInt 8]
    [ ("a", SObject [Some "x"; Some "y"]) ].


Fixpoint repeat_char (c : ascii) (n : nat) : string :=
  match n with
  | 0 => EmptyString
  | S n' => String c (repeat_char c n')
  end.

(** One row, one text column whose cell is 101 characters long. *)
Definition long_cell_df : DataFrame :=
  mkDataFrame (RangeIndex 1)
    [ ("Notes", SObject [Some (repeat_char "a" 101)]) ].

(* ------------------------------------------------------------------ *)
(** ** Worlds and requests used as examples *)

Definition fresh_world : world := mkWorld None [].

Definition csv_upload : upload := mkUpload "Report.CSV" (Some scenario_df).

Definition post_csv : request := mkRequest POST (Some csv_upload) "" "".

Definition get_blank : request := mkRequest GET None "   " " ".

(* ------------------------------------------------------------------ *)
(** ** Loops that do not raise, and loops that returned *)

Unset Implicit Arguments.

Lemma for_each_inv {A B} (f : A -> result B) (g : A -> B) (l : list A)
    (ys : list B) :
  (forall x y, In x l -> f x = Ok y -> y = g x) ->
  for_each f l = Ok ys -> ys = map g l.
Proof.
  revert ys. induction l as [|x l IH]; simpl; intros ys Hf H.
  - inversion H. reflexivity.
  - destruct (f x) as [y|e] eqn:Ex; simpl in H; [|discriminate].
    destruct (for_each f l) as [ys'|e] eqn:El; simpl in H; [|discriminate].
    inversion H; subst.
    rewrite (Hf x y (or_introl eq_refl) Ex).
    rewrite (IH ys'); [reflexivity| |reflexivity].
    intros x' y' Hx'. apply Hf. right. exact Hx'.
Qed.

Lemma for_fold_inv {A B S} (h : A -> B) (body : S -> B -> result S)
    (step : S -> A -> S) (l : list A) :
  (forall s x s1, In x l -> body s (h x) = Ok s1 -> s1 = step s x) ->
  forall s s', for_fold body (map h l) s = Ok s' -> s' = fold_left step l s.
Proof.
  induction l as [|x l IH]; simpl; intros Hstep s s' H.
  - inversion H. reflexivity.
  - destruct (body s (h x)) as [s1|e] eqn:E; simpl in H; [|discriminate].
    rewrite <- (Hstep s x s1 (or_introl eq_refl) E).
    apply IH; [|exact H].
    intros s0 y s2 Hy. apply Hstep. right. exact Hy.
Qed.

Lemma for_each_ok {A B} (f : A -> result B) (g : A -> B) (l : list A) :
  (forall x, In x l -> f x = Ok (g x)) -> for_each f l = Ok (map g l).
Proof.
  induction l as [|x xs IH]; intros H; simpl; [reflexivity|].
  rewrite (H x (or_introl eq_refl)); simpl.
  rewrite IH by (intros y Hy; apply H; right; exact Hy).
  reflexivity.
Qed.

Lemma for_each_map {A B C} (h : A -> B) (f : B -> result C) (l : list A) :
  for_each f (map h l) = for_each (fun x => f (h x)) l.
Proof.
  induction l as [|x xs IH]; simpl; [reflexivity|].
  rewrite IH; reflexivity.
Qed.

Lemma filter_each_ok {A B} (h : A -> B) (p : B -> result bool) (q : A -> bool)
    (l : list A) :
  (forall x, In x l -> p (h x) = Ok (q x)) ->
  filter_each p (map h l) = Ok (map h (filter q l)).
Proof.
  induction l as [|x xs IH]; intros H; simpl; [reflexivity|].
  rewrite (H x (or_introl eq_refl)); simpl.
  rewrite IH by (intros y Hy; apply H; right; exact Hy).
  simpl. destruct (q x); reflexivity.
Qed.

Lemma for_fold_ok {A B S} (h : A -> B) (body : S -> B -> result S)
    (step : S -> A -> S) (l : list A) :
  (forall s x, In x l -> body s (h x) = Ok (step s x)) ->
  forall s, for_fold body (map h l) s = Ok (fold_left step l s).
Proof.
  induction l as [|x xs IH]; intros H s; simpl; [reflexivity|].
  rewrite (H s x (or_introl eq_refl)); simpl.
  apply IH. intros s' y Hy; apply H; right; exact Hy.
Qed.

Lemma percent_if_ok (a b : nat) : percent_if a b = Ok (pct a b).
Proof.
  unfold percent_if, pct, truediv.
  destruct (b =? 0); reflexivity.
Qed.

(** ** Column lookup *)

Lemma lookup_column_In (col : string) (s : series) (cs : list (string * series)) :
  NoDup (map fst cs) -> In (col, s) cs -> lookup_column col cs = Ok s.
Proof.
  induction cs as [|[n t] cs IH]; simpl; intros Hnd Hin; [contradiction|].
  inversion Hnd as [|? ? Hnotin Hnd']; subst.
  destruct Hin as [Heq|Hin].
  - inversion Heq; subst. rewrite String.eqb_refl. reflexivity.
  - destruct (String.eqb_spec col n) as [->|Hne].
    + exfalso. apply Hnotin. apply (in_map fst) in Hin. exact Hin.
    + apply IH; assumption.
Qed.

Lemma getitem_column (df : DataFrame) (c : string * series) :
  well_formed df -> In c (columns df) -> getitem df (fst c) = Ok (snd c).
Proof.
  intros [[_ Hnd] _] Hin. unfold getitem.
  apply lookup_column_In; [exact Hnd|]. destruct c; exact Hin.
Qed.

Lemma included_In (excluded : list string) (df : DataFrame) (c : string * series) :
  In c (included excluded df) -> In c (columns df).
Proof.
  unfold included. intros H. apply filter_In in H. tauto.
Qed.

Lemma columns_to_check_included (excluded : list string) (df : DataFrame) :
  filter (fun col => negb (name_in col excluded)) (df_columns df)
  = map fst (included excluded df).
Proof.
  unfold df_columns, included.
  induction (columns df) as [|c cs IH]; simpl; [reflexivity|].
  destruct (negb (name_in (fst c) excluded)); simpl; rewrite IH; reflexivity.
Qed.

(** ** Masks and row labels *)

Lemma firstn_In {A} (n : nat) (l : list A) (x : A) :
  In x (firstn n l) -> In x l.
Proof.
  intros H. rewrite <- (firstn_skipn n l). apply in_or_app. left. exact H.
Qed.

Lemma where_true_from_bound (mask : list bool) (i idx : nat) :
  In idx (where_true_from i mask) -> i <= idx < i + length mask.
Proof.
  revert i. induction mask as [|b mask IH]; simpl; intros i H; [contradiction|].
  destruct b.
  - destruct H as [<-|H]; [lia|]. apply IH in H. lia.
  - apply IH in H. lia.
Qed.

Lemma where_true_from_length (mask : list bool) (i : nat) :
  length (where_true_from i mask) = count_true mask.
Proof.
  revert i. unfold count_true.
  induction mask as [|b mask IH]; simpl; intros i; [reflexivity|].
  destruct b; simpl; rewrite IH; reflexivity.
Qed.

Lemma where_true_length (mask : list bool) :
  length (where_true mask) = count_true mask.
Proof. apply where_true_from_length. Qed.

Lemma where_true_none (mask : list bool) :
  count_true mask = 0 -> where_true mask = [].
Proof.
  intros H. apply length_zero_iff_nil. rewrite where_true_length. exact H.
Qed.

Lemma mask_of_series (word_query : string) (s : series) :
  str_contains_nocase (str_lower word_query) (astype_str s)
  = match_mask word_query s.
Proof.
  unfold str_contains_nocase, astype_str, match_mask, cell_matches.
  rewrite map_map. reflexivity.
Qed.

Lemma match_mask_length (word_query : string) (s : series) :
  length (match_mask word_query s) = length (values s).
Proof. unfold match_mask. apply length_map. Qed.

Lemma select_where_from {A} (d : A) (mask : list bool) :
  forall (l : list A) (k : nat),
    length mask = length l ->
    select mask l = map (fun i => nth (i - k) l d) (where_true_from k mask).
Proof.
  induction mask as [|b mask IH]; intros l k Hlen; [reflexivity|].
  destruct l as [|x l]; [discriminate|].
  simpl in Hlen. injection Hlen as Hlen.
  assert (Htail : map (fun i => nth (i - S k) l d) (where_true_from (S k) mask)
                  = map (fun i => nth (i - k) (x :: l) d)
                      (where_true_from (S k) mask)).
  { apply map_ext_in. intros i Hi. apply where_true_from_bound in Hi.
    replace (i - k) with (S (i - S k)) by lia. reflexivity. }
  simpl. rewrite (IH l (S k) Hlen), Htail.
  destruct b; [|reflexivity].
  simpl. rewrite Nat.sub_diag. reflexivity.
Qed.

(** Boolean indexing of the index gives the labels of the selected
    positions. *)
Lemma select_where (df : DataFrame) (mask : list bool) :
  length mask = index_len df ->
  select mask (df_index df) = map (row_label df) (where_true mask).
Proof.
  intros Hlen. unfold where_true, row_label.
  rewrite (select_where_from (LInt 0) mask (df_index df) 0 Hlen).
  apply map_ext. intros i. rewrite Nat.sub_0_r. reflexivity.
Qed.

Lemma label_eqb_eq (a b : label) : label_eqb a b = true <-> a = b.
Proof.
  destruct a, b; simpl; try (split; [discriminate | intros H; discriminate H]).
  - rewrite Z.eqb_eq. split; [intros ->; reflexivity | intros H; inversion H; reflexivity].
  - rewrite String.eqb_eq. split; [intros ->; reflexivity | intros H; inversion H; reflexivity].
Qed.

Lemma position_of_nth (labels : list label) (d : label) :
  NoDup labels ->
  forall i, i < length labels -> position_of (nth i labels d) labels = Some i.
Proof.
  induction 1 as [|x l Hnotin Hnd IH]; intros i Hi; [simpl in Hi; lia|].
  destruct i as [|i]; simpl.
  - rewrite (proj2 (label_eqb_eq x x) eq_refl). reflexivity.
  - simpl in Hi.
    destruct (label_eqb (nth i l d) x) eqn:E.
    + apply label_eqb_eq in E. exfalso. apply Hnotin. rewrite <- E.
      apply nth_In. lia.
    + rewrite IH by lia. reflexivity.
Qed.

Lemma column_rectangular (df : DataFrame) (c : string * series) :
  well_formed df -> In c (columns df) -> length (values (snd c)) = index_len df.
Proof.
  intros [[Hrect _] _] Hc. rewrite Forall_forall in Hrect. apply Hrect. exact Hc.
Qed.

(** [df.loc] at the label of a row gives the cell of that row. *)
Lemma loc_row (df : DataFrame) (c : string * series) (i : nat) :
  well_formed df -> In c (columns df) -> i < index_len df ->
  loc df (row_label df i) (fst c) = Ok (nth i (values (snd c)) CNaN).
Proof.
  intros Hwf Hc Hi. unfold loc.
  rewrite (getitem_column df c Hwf Hc). simpl bind.
  unfold row_label.
  rewrite (position_of_nth (df_index df) (LInt 0) (proj2 Hwf) i Hi).
  rewrite (nth_error_nth' (values (snd c)) CNaN)
    by (rewrite (column_rectangular df c Hwf Hc); exact Hi).
  reflexivity.
Qed.

Lemma matched_position (df : DataFrame) (word_query : string)
    (c : string * series) (i : nat) :
  well_formed df -> In c (columns df) ->
  In i (firstn 3 (where_true (match_mask word_query (snd c)))) ->
  i < index_len df.
Proof.
  intros Hwf Hc Hi. apply firstn_In in Hi.
  apply where_true_from_bound in Hi.
  rewrite match_mask_length, (column_rectangular df c Hwf Hc) in Hi. lia.
Qed.

Lemma label_number_int (idx : label) (z : Z) :
  py_int idx = Ok z -> label_number idx = z.
Proof. unfold label_number. intros ->. reflexivity. Qed.

Lemma int_labels_row (df : DataFrame) (i : nat) :
  int_labels df -> i < index_len df ->
  exists z, row_label df i = LInt z.
Proof.
  intros Hint Hi. unfold int_labels in Hint. rewrite Forall_forall in Hint.
  apply Hint. unfold row_label. apply nth_In. exact Hi.
Qed.

(** ** The word-search loop *)

Lemma matched_labels (df : DataFrame) (word_query : string)
    (c : string * series) :
  well_formed df -> In c (columns df) ->
  firstn 3 (select (match_mask word_query (snd c)) (df_index df))
  = map (row_label df) (firstn 3 (where_true (match_mask word_query (snd c)))).
Proof.
  intros Hwf Hc. rewrite select_where.
  - apply firstn_map.
  - rewrite match_mask_length. apply column_rectangular; assumption.
Qed.

(** An iteration that returns has done what [word_step] says. *)
Lemma word_search_step_inv (df : DataFrame) (word_query : string)
    (st st1 : word_state) (c : string * series) :
  well_formed df -> In c (columns df) ->
  word_search_step df (str_lower word_query) st (fst c) = Ok st1 ->
  st1 = word_step df word_query st c.
Proof.
  intros Hwf Hc. unfold word_search_step, word_step.
  rewrite (getitem_column df c Hwf Hc). cbn [bind].
  rewrite mask_of_series. fold (match_count word_query (snd c)).
  unfold column_result, shape. simpl fst.
  destruct (0 <? match_count word_query (snd c));
    [|intros H; inversion H; reflexivity].
  rewrite percent_if_ok. cbn [bind].
  rewrite (matched_labels df word_query c Hwf Hc), for_each_map.
  destruct (for_each _ _) as [examples|e] eqn:E; simpl; [|discriminate].
  intros H. inversion H. clear H.
  apply (for_each_inv _
           (fun i => WordExample.mk (fst c)
                       (label_number (row_label df i) + 1)%Z
                       (cell_str (nth i (values (snd c)) CNaN)))) in E.
  { subst examples. reflexivity. }
  intros i y Hi Hy.
  rewrite (loc_row df c i Hwf Hc (matched_position df word_query c i Hwf Hc Hi))
    in Hy.
  simpl in Hy.
  destruct (py_int (row_label df i)) as [z|e] eqn:Ez; simpl in Hy; [|discriminate].
  inversion Hy. rewrite (label_number_int _ _ Ez). reflexivity.
Qed.

(** With integer labels every iteration returns. *)
Lemma word_search_step_ok (df : DataFrame) (word_query : string)
    (st : word_state) (c : string * series) :
  well_formed df -> int_labels df -> In c (columns df) ->
  word_search_step df (str_lower word_query) st (fst c)
  = Ok (word_step df word_query st c).
Proof.
  intros Hwf Hint Hc. unfold word_search_step, word_step.
  rewrite (getitem_column df c Hwf Hc). cbn [bind].
  rewrite mask_of_series. fold (match_count word_query (snd c)).
  unfold column_result, shape. simpl fst.
  destruct (0 <? match_count word_query (snd c)); [|reflexivity].
  rewrite percent_if_ok. cbn [bind].
  rewrite (matched_labels df word_query c Hwf Hc), for_each_map.
  rewrite (for_each_ok _
             (fun i => WordExample.mk (fst c)
                         (label_number (row_label df i) + 1)%Z
                         (cell_str (nth i (values (snd c)) CNaN)))).
  - reflexivity.
  - intros i Hi.
    pose proof (matched_position df word_query c i Hwf Hc Hi) as Hlt.
    rewrite (loc_row df c i Hwf Hc Hlt). cbn [bind].
    destruct (int_labels_row df i Hint Hlt) as [z ->]. reflexivity.
Qed.

Lemma column_examples_none (df : DataFrame) (word_query : string)
    (c : string * series) :
  match_count word_query (snd c) = 0 -> column_examples df word_query c = [].
Proof.
  intros H. unfold column_examples.
  rewrite where_true_none by exact H. reflexivity.
Qed.

Lemma column_result_none (n : nat) (word_query : string) (c : string * series) :
  match_count word_query (snd c) = 0 -> column_result n word_query c = [].
Proof.
  intros H. unfold column_result. rewrite H. reflexivity.
Qed.

Lemma word_fold_closed (df : DataFrame) (word_query : string)
    (l : list (string * series)) (st : word_state) :
  fold_left (word_step df word_query) l st
  = mkWordState
      (st_results st ++ flat_map (column_result (index_len df) word_query) l)
      (st_examples st ++ flat_map (column_examples df word_query) l)
      (st_total st + sum_nat (map (fun c => match_count word_query (snd c)) l)).
Proof.
  revert st. induction l as [|c l IH]; intros st; simpl.
  - rewrite !app_nil_r, Nat.add_0_r. destruct st; reflexivity.
  - rewrite IH. unfold word_step.
    destruct (0 <? match_count word_query (snd c)) eqn:Hpos; simpl.
    + f_equal; [now rewrite <- app_assoc | now rewrite <- app_assoc | lia].
    + apply Nat.ltb_ge in Hpos.
      assert (H0 : match_count word_query (snd c) = 0) by lia.
      rewrite (column_examples_none df _ _ H0),
        (column_result_none (index_len df) _ _ H0), H0.
      reflexivity.
Qed.

(** ** The refinement equations *)

(** Everything but the word-search loop always returns. *)
Lemma analyze_dataframe_with_loop (excluded : list string)
    (df : DataFrame) (column_query word_query : string) :
  well_formed df ->
  analyze_dataframe_with excluded df column_query word_query
  = (st <- (if str_truthy word_query then
              st <- for_fold (word_search_step df (str_lower word_query))
                      (map fst (included excluded df)) (mkWordState [] [] 0) ;;
              Ok (mkWordState
                    (sort_desc WordResult.count (st_results st))
                    (firstn 10 (st_examples st))
                    (st_total st))
            else Ok (mkWordState [] [] 0)) ;;
     let P := profile excluded df column_query word_query in
     Ok (mkDatasetStats (num_rows P) (num_columns P) (num_duplicates P)
           (total_missing P) (missing_percentage P) (complete_columns_count P)
           (complete_columns P) (all_columns P) (filtered_columns P)
           (column_names P) (dtypes P) (missing_breakdown P)
           (st_results st) (st_examples st) (st_total st))).
Proof.
  intros Hwf. unfold analyze_dataframe_with, shape.
  rewrite percent_if_ok. simpl bind.
  rewrite columns_to_check_included.
  rewrite (filter_each_ok fst _ (fun c => notna_all (snd c))).
  2:{ intros c Hc. apply included_In in Hc.
      rewrite (getitem_column df c Hwf Hc). reflexivity. }
  simpl bind.
  rewrite for_each_map.
  rewrite (for_each_ok _ (status_of (index_len df))).
  2:{ intros c Hc. apply included_In in Hc. unfold column_status.
      rewrite (getitem_column df c Hwf Hc). simpl bind.
      rewrite percent_if_ok. reflexivity. }
  simpl bind.
  unfold df_isnull_sum. rewrite map_map. simpl.
  rewrite (for_each_ok _
             (fun item : string * nat =>
                MissingBreakdown.mk (fst item) (snd item)
                  (pct (snd item) (index_len df)))).
  2:{ intros item _. rewrite percent_if_ok. reflexivity. }
  simpl bind.
  assert (Hbreak :
    map (fun item : string * nat =>
           MissingBreakdown.mk (fst item) (snd item)
             (pct (snd item) (index_len df)))
      (filter (fun item : string * nat => 0 <? snd item)
         (map (fun c : string * series => (fst c, isnull_sum (snd c)))
            (columns df)))
    = map (breakdown_of (index_len df))
        (filter (fun c => 0 <? isnull_sum (snd c)) (columns df))).
  { induction (columns df) as [|c cs IH]; simpl; [reflexivity|].
    destruct (0 <? isnull_sum (snd c)); simpl; rewrite IH; reflexivity. }
  rewrite Hbreak. clear Hbreak.
  unfold profile. rewrite length_map. reflexivity.
Qed.

(** When [analyze_dataframe_with] returns, it returns the closed form. *)
Theorem analyze_dataframe_with_inv (excluded : list string) (df : DataFrame)
    (column_query word_query : string) (p : DatasetStats) :
  well_formed df ->
  analyze_dataframe_with excluded df column_query word_query = Ok p ->
  p = profile excluded df column_query word_query.
Proof.
  intros Hwf H.
  rewrite (analyze_dataframe_with_loop excluded df _ _ Hwf) in H.
  unfold profile in *. cbv zeta in H.
  destruct (str_truthy word_query) eqn:Hwq.
  - destruct (for_fold _ _ _) as [st|e] eqn:E; simpl in H; [|discriminate].
    apply (for_fold_inv fst _ (word_step df word_query)) in E.
    + subst st. rewrite word_fold_closed in H. simpl in H.
      inversion H. reflexivity.
    + intros s c s1 Hc. apply included_In in Hc.
      apply word_search_step_inv; assumption.
  - simpl in H. inversion H. reflexivity.
Qed.

(** It returns whenever there is no word query or every row label is an
    integer. *)
Theorem analyze_dataframe_with_profile (excluded : list string)
    (df : DataFrame) (column_query word_query : string) :
  well_formed df ->
  str_truthy word_query = false \/ int_labels df ->
  analyze_dataframe_with excluded df column_query word_query
  = Ok (profile excluded df column_query word_query).
Proof.
  intros Hwf Hcase.
  rewrite (analyze_dataframe_with_loop excluded df _ _ Hwf).
  unfold profile. cbv zeta.
  destruct (str_truthy word_query) eqn:Hwq.
  - destruct Hcase as [Hno|Hint]; [discriminate|].
    rewrite (for_fold_ok fst _ (word_step df word_query)).
    + simpl bind. rewrite word_fold_closed. simpl. reflexivity.
    + intros st c Hc. apply included_In in Hc.
      apply word_search_step_ok; assumption.
  - reflexivity.
Qed.

Lemma for_each_each {A B} (f : A -> result B) (l : list A) (ys : list B) :
  for_each f l = Ok ys -> forall x, In x l -> exists y, f x = Ok y.
Proof.
  revert ys. induction l as [|x0 l IH]; simpl; intros ys H x Hx;
    [contradiction|].
  destruct (f x0) as [y0|e] eqn:E0; simpl in H; [|discriminate].
  destruct (for_each f l) as [ys'|e] eqn:El; simpl in H; [|discriminate].
  destruct Hx as [<-|Hx]; [exists y0; exact E0 | apply (IH ys' eq_refl x Hx)].
Qed.

Lemma for_fold_each {A S} (body : S -> A -> result S) (l : list A) :
  forall s s', for_fold body l s = Ok s' ->
  forall x, In x l -> exists s1 s2, body s1 x = Ok s2.
Proof.
  induction l as [|x0 l IH]; simpl; intros s s' H x Hx; [contradiction|].
  destruct (body s x0) as [s1|e] eqn:E; simpl in H; [|discriminate].
  destruct Hx as [<-|Hx]; [exists s, s1; exact E | apply (IH s1 s' H x Hx)].
Qed.

(** An iteration that returns has converted the label of each row it
    made an example of. *)
Lemma word_search_step_labels (df : DataFrame) (word_query : string)
    (st st1 : word_state) (c : string * series) (i : nat) :
  well_formed df -> In c (columns df) ->
  word_search_step df (str_lower word_query) st (fst c) = Ok st1 ->
  In i (firstn 3 (where_true (match_mask word_query (snd c)))) ->
  py_int (row_label df i) = Ok (label_number (row_label df i)).
Proof.
  intros Hwf Hc Hstep Hi. revert Hstep. unfold word_search_step.
  rewrite (getitem_column df c Hwf Hc). cbn [bind].
  rewrite mask_of_series. fold (match_count word_query (snd c)).
  unfold shape. simpl fst.
  destruct (0 <? match_count word_query (snd c)) eqn:Hpos.
  - rewrite percent_if_ok. cbn [bind].
    rewrite (matched_labels df word_query c Hwf Hc), for_each_map.
    destruct (for_each _ _) as [examples|e] eqn:E; simpl; [|discriminate].
    intros _.
    destruct (for_each_each _ _ _ E i Hi) as [y Hy].
    rewrite (loc_row df c i Hwf Hc (matched_position df word_query c i Hwf Hc Hi))
      in Hy.
    simpl in Hy.
    destruct (py_int (row_label df i)) as [z|e] eqn:Ez; simpl in Hy;
      [|discriminate].
    rewrite (label_number_int _ _ Ez). reflexivity.
  - intros _. apply Nat.ltb_ge in Hpos.
    assert (H0 : match_count word_query (snd c) = 0) by lia.
    rewrite (where_true_none _ H0) in Hi. destruct Hi.
Qed.

(** When a search returns, [int] has accepted the label of every row
    the examples are taken from. *)
Theorem analyze_dataframe_with_labels (excluded : list string)
    (df : DataFrame) (column_query word_query : string) (p : DatasetStats)
    (c : string * series) (i : nat) :
  well_formed df ->
  str_truthy word_query = true ->
  analyze_dataframe_with excluded df column_query word_query = Ok p ->
  In c (included excluded df) ->
  In i (firstn 3 (where_true (match_mask word_query (snd c)))) ->
  py_int (row_label df i) = Ok (label_number (row_label df i)).
Proof.
  intros Hwf Hwq H Hc Hi.
  rewrite (analyze_dataframe_with_loop excluded df _ _ Hwf) in H.
  rewrite Hwq in H.
  destruct (for_fold _ _ _) as [st|e] eqn:E; simpl in H; [|discriminate].
  destruct (for_fold_each _ _ _ _ E (fst c) (in_map fst _ _ Hc))
    as [s1 [s2 Hstep]].
  apply included_In in Hc.
  exact (word_search_step_labels df word_query s1 s2 c i Hwf Hc Hstep Hi).
Qed.

(* ------------------------------------------------------------------ *)
(** ** Percentages *)

Lemma ratio_bounds (x y : Z) :
  (0 <= x <= y)%Z -> (0 < y)%Z ->
  (0 <= inject_Z x / inject_Z y * 100 <= 100)%Q /\
  ((inject_Z x / inject_Z y * 100 == 0)%Q <-> x = 0%Z).
Proof.
  intros Hx Hy.
  destruct y as [|p|p]; try lia.
  unfold Qle, Qeq, Qdiv, Qmult, Qinv, inject_Z. simpl.
  rewrite ?Z.mul_1_r, ?Pos.mul_1_r. split; [split|split]; intros; lia.
Qed.

Lemma pct_bounds (a b : nat) :
  a <= b -> (0 <= pct a b <= 100)%Q.
Proof.
  intros Hab. unfold pct.
  destruct (Nat.eqb_spec b 0) as [->|Hb].
  - split; unfold Qle; simpl; lia.
  - apply ratio_bounds; lia.
Qed.

Lemma pct_zero_iff (a b : nat) :
  a <= b -> ((pct a b == 0)%Q <-> a = 0).
Proof.
  intros Hab. unfold pct.
  destruct (Nat.eqb_spec b 0) as [->|Hb].
  - split; intros; [lia | reflexivity].
  - destruct (ratio_bounds (Z.of_nat a) (Z.of_nat b)) as [_ H]; try lia.
    rewrite H. lia.
Qed.

Lemma pct_no_rows (a : nat) : pct a 0 = 0%Q.
Proof. reflexivity. Qed.

(** ** Counting missing cells *)

Lemma count_true_le (l : list bool) : count_true l <= length l.
Proof. unfold count_true. apply filter_length_le. Qed.

Lemma isnull_notna_sum (s : series) :
  notna_sum s + isnull_sum s = length (values s).
Proof.
  unfold notna_sum, isnull_sum, count_true, notna.
  induction (values s) as [|c l IH]; simpl; [reflexivity|].
  destruct (isnull c); simpl; lia.
Qed.

Lemma notna_all_iff (s : series) :
  notna_all s = true <-> isnull_sum s = 0.
Proof.
  unfold notna_all, isnull_sum, count_true, notna.
  induction (values s) as [|c l IH]; simpl; [tauto|].
  destruct (isnull c); simpl.
  - split; [discriminate | lia].
  - exact IH.
Qed.

Lemma notna_all_eqb (s : series) : notna_all s = (isnull_sum s =? 0).
Proof.
  destruct (Nat.eqb_spec (isnull_sum s) 0) as [H|H].
  - apply notna_all_iff. exact H.
  - destruct (notna_all s) eqn:E; [|reflexivity].
    apply notna_all_iff in E. contradiction.
Qed.

Lemma sum_nat_bound (A : Type) (f : A -> nat) (n : nat) (l : list A) :
  Forall (fun x => f x <= n) l -> sum_nat (map f l) <= n * length l.
Proof.
  induction 1 as [|x l Hx _ IH]; simpl; lia.
Qed.

Lemma sum_nat_filter_le (A : Type) (f : A -> nat) (p : A -> bool) (l : list A) :
  sum_nat (map f (filter p l)) <= sum_nat (map f l).
Proof.
  induction l as [|x l IH]; simpl; [lia|].
  destruct (p x); simpl; lia.
Qed.

Lemma total_missing_bound (df : DataFrame) :
  well_formed df ->
  sum_nat (map (fun c => isnull_sum (snd c)) (columns df))
  <= index_len df * length (columns df).
Proof.
  intros Hwf. apply sum_nat_bound. apply Forall_forall. intros c Hc.
  rewrite <- (column_rectangular df c Hwf Hc).
  pose proof (isnull_notna_sum (snd c)). lia.
Qed.

(* ------------------------------------------------------------------ *)
(** ** The stable descending sort *)

Section SortDescFacts.
Variable A : Type.
Variable key : A -> nat.

Lemma insert_desc_perm (x : A) (l : list A) :
    Permutation (insert_desc key x l) (x :: l).
Proof.
    induction l as [|y ys IH]; simpl; [apply Permutation_refl|].
    destruct (key y <=? key x); [apply Permutation_refl|].
    apply perm_trans with (y :: x :: ys);
      [apply perm_skip; exact IH | apply perm_swap].
Qed.

Lemma sort_desc_perm (l : list A) : Permutation (sort_desc key l) l.
Proof.
    induction l as [|x xs IH]; simpl; [apply perm_nil|].
    apply perm_trans with (x :: sort_desc key xs);
      [apply insert_desc_perm | apply perm_skip; exact IH].
Qed.

Lemma insert_desc_sorted (x : A) (l : list A) :
    StronglySorted (desc key) l -> StronglySorted (desc key) (insert_desc key x l).
Proof.
    induction 1 as [|y ys Hs IH Hy]; simpl.
    - constructor; constructor.
    - destruct (Nat.leb_spec (key y) (key x)) as [Hle|Hgt].
      + constructor; [constructor; assumption|].
        constructor; [exact Hle|].
        rewrite Forall_forall in Hy |- *. intros z Hz.
        specialize (Hy z Hz). unfold desc in *. lia.
      + constructor; [exact IH|].
        rewrite Forall_forall in Hy |- *. intros z Hz.
        apply (Permutation_in _ (insert_desc_perm x ys)) in Hz.
        destruct Hz as [<-|Hz]; [unfold desc; lia | apply Hy; exact Hz].
Qed.

Lemma sort_desc_sorted (l : list A) : StronglySorted (desc key) (sort_desc key l).
Proof.
    induction l as [|x xs IH]; simpl; [constructor|].
    apply insert_desc_sorted. exact IH.
Qed.

  (** Stability: the elements of any one key keep their relative order. *)
Lemma insert_desc_stable (k : nat) (x : A) (l : list A) :
    StronglySorted (desc key) l ->
    filter (fun a => key a =? k) (insert_desc key x l)
    = filter (fun a => key a =? k) (x :: l).
Proof.
    induction 1 as [|y ys Hs IH Hy]; [reflexivity|].
    simpl insert_desc.
    destruct (Nat.leb_spec (key y) (key x)) as [Hle|Hgt]; [reflexivity|].
    simpl. simpl in IH. rewrite IH.
    destruct (Nat.eqb_spec (key x) k) as [Hx|Hx];
      destruct (Nat.eqb_spec (key y) k) as [Hy'|Hy']; try reflexivity.
    lia.
Qed.

Lemma sort_desc_stable (k : nat) (l : list A) :
    filter (fun a => key a =? k) (sort_desc key l)
    = filter (fun a => key a =? k) l.
Proof.
    induction l as [|x xs IH]; [reflexivity|].
    simpl sort_desc. rewrite insert_desc_stable by apply sort_desc_sorted.
    simpl. rewrite IH. reflexivity.
Qed.
End SortDescFacts.

Lemma sum_nat_zero (A : Type) (f : A -> nat) (l : list A) :
  sum_nat (map f l) = 0 -> forall x, In x l -> f x = 0.
Proof.
  induction l as [|y l IH]; simpl; intros H x Hx; [contradiction|].
  destruct Hx as [<-|Hx]; [lia|]. apply IH; [lia | exact Hx].
Qed.

Lemma flat_map_nil (A B : Type) (g : A -> list B) (l : list A) :
  (forall x, In x l -> g x = []) -> flat_map g l = [].
Proof.
  induction l as [|y l IH]; simpl; intros H; [reflexivity|].
  rewrite (H y (or_introl eq_refl)). simpl.
  apply IH. intros x Hx. apply H. right. exact Hx.
Qed.

(* ------------------------------------------------------------------ *)
(** ** Completeness of columns *)

(** C1 (as amended): for a well-formed frame, [missing_percentage] and
    every [completion_rate] lie in [0, 100] and are 0 when the frame has
    no rows; [missing_percentage] is 0 exactly when no cell is missing,
    and a column's [completion_rate] is 0 exactly when its
    [complete_count] is 0. *)
Theorem percentages_in_range (df : DataFrame) (column_query word_query : string)
    (p : DatasetStats) :
  well_formed df ->
  analyze_dataframe df column_query word_query = Ok p ->
  (0 <= missing_percentage p <= 100)%Q /\
  (num_rows p = 0 -> (missing_percentage p == 0)%Q) /\
  ((missing_percentage p == 0)%Q <-> total_missing p = 0) /\
  Forall (fun st =>
            (0 <= ColumnStatus.completion_rate st <= 100)%Q /\
            (num_rows p = 0 -> (ColumnStatus.completion_rate st == 0)%Q) /\
            ((ColumnStatus.completion_rate st == 0)%Q
             <-> ColumnStatus.complete_count st = 0))
    (all_columns p).
Proof.
  intros Hwf H.
  apply (analyze_dataframe_with_inv _ _ _ _ _ Hwf) in H. subst p. simpl.
  pose proof (total_missing_bound df Hwf) as Htot.
  split; [apply pct_bounds; exact Htot|].
  split; [intros ->; reflexivity|].
  split; [apply pct_zero_iff; exact Htot|].
  apply Forall_forall. intros st Hst.
  apply in_map_iff in Hst. destruct Hst as [c [<- Hc]]. simpl.
  apply included_In in Hc.
  assert (Hle : notna_sum (snd c) <= index_len df).
  { rewrite <- (column_rectangular df c Hwf Hc).
    pose proof (isnull_notna_sum (snd c)). lia. }
  split; [apply pct_bounds; exact Hle|].
  split; [intros ->; reflexivity|].
  apply pct_zero_iff; exact Hle.
Qed.


(** C9: [total_missing] is the sum of the missing counts of all the
    frame's columns, and [all_columns] carries, in frame order, the name
    and the missing count of each column the exclusion list leaves in.
    So the missing counts of the statuses sum to at most
    [total_missing], whatever the exclusion list; they sum to exactly
    [total_missing] when the exclusion list is empty, and more generally
    when it names no column of the frame. *)
Theorem included_missing_le_total (excluded : list string) (df : DataFrame)
    (column_query word_query : string) (p : DatasetStats) :
  well_formed df ->
  analyze_dataframe_with excluded df column_query word_query = Ok p ->
  total_missing p
  = sum_nat (map (fun c => isnull_sum (snd c)) (columns df)) /\
  map (fun st => (ColumnStatus.name st, ColumnStatus.missing_count st))
    (all_columns p)
  = map (fun c => (fst c, isnull_sum (snd c)))
      (filter (fun c => negb (name_in (fst c) excluded)) (columns df)) /\
  sum_nat (map ColumnStatus.missing_count (all_columns p)) <= total_missing p /\
  (excluded = [] ->
   sum_nat (map ColumnStatus.missing_count (all_columns p)) = total_missing p) /\
  ((forall col, In col (df_columns df) -> name_in col excluded = false) ->
   sum_nat (map ColumnStatus.missing_count (all_columns p)) = total_missing p).
Proof.
  intros Hwf H.
  apply (analyze_dataframe_with_inv _ _ _ _ _ Hwf) in H. subst p.
  unfold profile. cbn [total_missing all_columns].
  split; [reflexivity|].
  split; [rewrite map_map; reflexivity|].
  rewrite map_map. cbn [ColumnStatus.missing_count status_of].
  assert (Hall : (forall col, In col (df_columns df) ->
                              name_in col excluded = false) ->
                 included excluded df = columns df).
  { intros Hno. unfold included. apply forallb_filter_id.
    apply forallb_forall. intros c Hc.
    rewrite (Hno (fst c)); [reflexivity|].
    unfold df_columns. apply in_map. exact Hc. }
  split; [apply sum_nat_filter_le|].
  split.
  - intros ->. rewrite Hall; [reflexivity|]. intros; reflexivity.
  - intros Hno. rewrite (Hall Hno). reflexivity.
Qed.

(** C10: the profile is consistent with itself.  [all_columns] lists the
    included columns in frame order; [complete_columns] is, in that
    order, the names of the statuses with [missing_count] 0;
    [complete_columns_count] is its length; [is_complete] holds exactly
    when [missing_count] is 0; and [complete_count + missing_count] is
    the row count. *)
Theorem profile_fields_consistent (df : DataFrame)
    (column_query word_query : string) (p : DatasetStats) :
  well_formed df ->
  analyze_dataframe df column_query word_query = Ok p ->
  map ColumnStatus.name (all_columns p)
  = filter (fun col => negb (name_in col EXCLUDED_COLUMNS)) (df_columns df) /\
  complete_columns p
  = map ColumnStatus.name
      (filter (fun st => ColumnStatus.missing_count st =? 0) (all_columns p)) /\
  complete_columns_count p = length (complete_columns p) /\
  Forall (fun st =>
            (ColumnStatus.is_complete st = true
             <-> ColumnStatus.missing_count st = 0) /\
            ColumnStatus.complete_count st + ColumnStatus.missing_count st
            = num_rows p)
    (all_columns p).
Proof.
  intros Hwf. unfold analyze_dataframe.
  generalize EXCLUDED_COLUMNS as excluded. intros excluded H.
  apply (analyze_dataframe_with_inv _ _ _ _ _ Hwf) in H. subst p. simpl.
  split; [|split; [|split]].
  - rewrite columns_to_check_included, map_map. reflexivity.
  - induction (included excluded df) as [|c l IH]; [reflexivity|].
    simpl. rewrite notna_all_eqb.
    destruct (isnull_sum (snd c) =? 0); simpl; rewrite IH; reflexivity.
  - rewrite length_map. reflexivity.
  - apply Forall_forall. intros st Hst.
    apply in_map_iff in Hst. destruct Hst as [c [<- Hc]]. simpl.
    split; [apply Nat.eqb_eq|].
    apply included_In in Hc.
    rewrite <- (column_rectangular df c Hwf Hc).
    apply isnull_notna_sum.
Qed.

(* ------------------------------------------------------------------ *)
(** ** Substring search *)

Lemma startswith_iff (h n : string) :
  startswith h n = true <-> exists post, h = (n ++ post)%string.
Proof.
  revert h. induction n as [|a n IH]; intros h; simpl.
  - split; [intros _; exists h; reflexivity | intros _; reflexivity].
  - destruct h as [|b h].
    + split; [discriminate | intros [post H]; discriminate].
    + rewrite andb_true_iff, Ascii.eqb_eq, IH. split.
      * intros [-> [post ->]]. exists post. reflexivity.
      * intros [post H]. inversion H. split; [reflexivity|].
        exists post. reflexivity.
Qed.

Lemma str_in_iff (n h : string) :
  str_in n h = true <-> exists pre post, h = (pre ++ n ++ post)%string.
Proof.
  induction h as [|b h IH]; simpl.
  - rewrite orb_false_r, startswith_iff. split.
    + intros [post H]. exists EmptyString, post. exact H.
    + intros [pre [post H]]. destruct pre; [|discriminate].
      exists post. exact H.
  - rewrite orb_true_iff, startswith_iff, IH. split.
    + intros [[post H]|[pre [post H]]].
      * exists EmptyString, post. exact H.
      * exists (String b pre), post. simpl. rewrite H. reflexivity.
    + intros [pre [post H]]. destruct pre as [|c pre].
      * left. exists post. exact H.
      * right. exists pre, post. inversion H. reflexivity.
Qed.

Lemma map_chars_app (f : ascii -> ascii) (a b : string) :
  map_chars f (a ++ b)%string = (map_chars f a ++ map_chars f b)%string.
Proof.
  induction a as [|c a IH]; simpl; [reflexivity|]. rewrite IH. reflexivity.
Qed.

Lemma map_chars_split (f : ascii -> ascii) (s a b : string) :
  map_chars f s = (a ++ b)%string ->
  exists s1 s2, s = (s1 ++ s2)%string /\ map_chars f s1 = a /\ map_chars f s2 = b.
Proof.
  revert s. induction a as [|c a IH]; intros s H.
  - exists EmptyString, s. repeat split. exact H.
  - destruct s as [|d s]; [discriminate|].
    simpl in H. inversion H as [[Hc Hs]].
    destruct (IH s Hs) as [s1 [s2 [-> [H1 H2]]]].
    exists (String d s1), s2. simpl. rewrite H1. repeat split. exact H2.
Qed.

Lemma ascii_upper_lower (c : ascii) : ascii_upper (ascii_lower c) = ascii_upper c.
Proof. destruct c as [[] [] [] [] [] [] [] []]; reflexivity. Qed.

Lemma ascii_lower_upper (c : ascii) : ascii_lower (ascii_upper c) = ascii_lower c.
Proof. destruct c as [[] [] [] [] [] [] [] []]; reflexivity. Qed.

Lemma upper_lower (s : string) : upper (lower s) = upper s.
Proof.
  unfold upper, lower. induction s as [|c s IH]; simpl; [reflexivity|].
  rewrite ascii_upper_lower, IH. reflexivity.
Qed.

Lemma lower_upper (s : string) : lower (upper s) = lower s.
Proof.
  unfold upper, lower. induction s as [|c s IH]; simpl; [reflexivity|].
  rewrite ascii_lower_upper, IH. reflexivity.
Qed.

Lemma upper_eq_lower_eq (a b : string) : upper a = upper b <-> lower a = lower b.
Proof.
  split; intros H.
  - rewrite <- (lower_upper a), <- (lower_upper b), H. reflexivity.
  - rewrite <- (upper_lower a), <- (upper_lower b), H. reflexivity.
Qed.

(** Folding both sides and searching finds exactly the case-insensitive
    occurrences. *)
Lemma folded_search (f : ascii -> ascii) (q s : string) :
  str_in (map_chars f q) (map_chars f s) = true <->
  exists pre mid post,
    s = (pre ++ mid ++ post)%string /\ map_chars f mid = map_chars f q.
Proof.
  rewrite str_in_iff. split.
  - intros [pre [post H]].
    apply map_chars_split in H. destruct H as [s1 [s2 [-> [_ H2]]]].
    apply map_chars_split in H2. destruct H2 as [m [s3 [-> [Hm _]]]].
    exists s1, m, s3. split; [reflexivity | exact Hm].
  - intros [pre [mid [post [-> Hm]]]].
    exists (map_chars f pre), (map_chars f post).
    rewrite !map_chars_app, Hm. reflexivity.
Qed.


Lemma upper_search (q s : string) :
  str_in (upper (lower q)) (upper s) = true <-> ci_substring q s.
Proof.
  rewrite upper_lower. unfold upper. rewrite folded_search.
  unfold ci_substring.
  split; intros [pre [mid [post [Hs Hm]]]]; exists pre, mid, post;
    (split; [exact Hs | apply upper_eq_lower_eq in Hm || apply upper_eq_lower_eq; exact Hm]).
Qed.

Lemma str_truthy_iff (s : string) : str_truthy s = true <-> s <> "".
Proof.
  destruct s; simpl; split; intros H; try discriminate; try reflexivity.
  contradiction.
Qed.

Lemma NoDup_map_filter (A B : Type) (f : A -> B) (q : A -> bool) (l : list A) :
  NoDup (map f l) -> NoDup (map f (filter q l)).
Proof.
  induction l as [|x l IH]; simpl; intros H; [constructor|].
  inversion H as [|? ? Hnotin Hnd]; subst.
  destruct (q x); simpl; [|apply IH; exact Hnd].
  constructor; [|apply IH; exact Hnd].
  intros Hin. apply Hnotin.
  apply in_map_iff in Hin. destruct Hin as [y [Hy Hin]].
  apply filter_In in Hin. rewrite <- Hy. apply in_map. tauto.
Qed.

Lemma ascii_lower_is_ascii (c : ascii) :
  (nat_of_ascii (ascii_lower c) <? 128) = (nat_of_ascii c <? 128).
Proof. destruct c as [[] [] [] [] [] [] [] []]; reflexivity. Qed.

Lemma ascii_upper_is_ascii (c : ascii) :
  (nat_of_ascii (ascii_upper c) <? 128) = (nat_of_ascii c <? 128).
Proof. destruct c as [[] [] [] [] [] [] [] []]; reflexivity. Qed.

Lemma is_ascii_lower (s : string) : is_ascii (lower s) = is_ascii s.
Proof.
  unfold lower. induction s as [|c s IH]; [reflexivity|].
  cbn [map_chars is_ascii]. rewrite ascii_lower_is_ascii, IH. reflexivity.
Qed.

Lemma is_ascii_upper (s : string) : is_ascii (upper s) = is_ascii s.
Proof.
  unfold upper. induction s as [|c s IH]; [reflexivity|].
  cbn [map_chars is_ascii]. rewrite ascii_upper_is_ascii, IH. reflexivity.
Qed.


(** On ASCII text the cell test of the word search is case-insensitive
    substring containment. *)
Lemma cell_test_ascii (q : string) (c : cell) :
  ascii_exact -> is_ascii q = true -> is_ascii (cell_str c) = true ->
  (cell_matches q c = true <-> ci_substring q (cell_str c)).
Proof.
  intros [Hlow Hup] Hq Hc. unfold cell_matches.
  rewrite (Hlow q Hq), (Hup (cell_str c) Hc).
  rewrite (Hup (lower q)) by (rewrite is_ascii_lower; exact Hq).
  apply upper_search.
Qed.

(* ------------------------------------------------------------------ *)
(** ** The column-name filter *)


(* ------------------------------------------------------------------ *)
(** ** The word search *)

Lemma match_count_filter (word_query : string) (s : series) :
  match_count word_query s
  = length (filter (cell_matches word_query) (values s)).
Proof.
  unfold match_count, match_mask, count_true.
  induction (values s) as [|c l IH]; simpl; [reflexivity|].
  destruct (cell_matches word_query c); simpl; rewrite IH; reflexivity.
Qed.

Lemma result_items (n : nat) (word_query : string)
    (cs : list (string * series)) :
  map (fun r => (WordResult.name r, WordResult.count r))
    (flat_map (column_result n word_query) cs)
  = filter (fun item : string * nat => 0 <? snd item)
      (map (fun c : string * series =>
              (fst c,
               length (filter (cell_matches word_query) (values (snd c)))))
         cs).
Proof.
  induction cs as [|c cs IH]; [reflexivity|].
  cbn [flat_map map filter snd]. rewrite map_app, IH.
  unfold column_result. rewrite <- match_count_filter.
  destruct (0 <? match_count word_query (snd c)); reflexivity.
Qed.

Lemma result_names_NoDup (n : nat) (word_query : string)
    (cs : list (string * series)) :
  NoDup (map fst cs) ->
  NoDup (map WordResult.name (flat_map (column_result n word_query) cs)).
Proof.
  induction cs as [|c l IH]; intros Hnd; [constructor|].
  inversion Hnd as [|? ? Hnotin Hnd']; subst.
  cbn [flat_map]. rewrite map_app. unfold column_result at 1.
  destruct (0 <? match_count word_query (snd c)); [|apply IH; exact Hnd'].
  cbn [map app WordResult.name]. constructor; [|apply IH; exact Hnd'].
  intros Hin. apply Hnotin.
  apply in_map_iff in Hin. destruct Hin as [r [Hr Hin]].
  apply in_flat_map in Hin. destruct Hin as [c' [Hc' Hin]].
  unfold column_result in Hin.
  destruct (0 <? match_count word_query (snd c')); [|contradiction].
  destruct Hin as [<-|[]]. cbn [WordResult.name] in Hr.
  rewrite <- Hr. apply in_map. exact Hc'.
Qed.

(** X8: the literal search of [analyze_dataframe]: under a non-empty
    [word_query] the mask of a column is computed cell by cell on the
    stringified cell, missing cells included; [word_results] holds
    exactly one entry for each included column with a matched cell and
    no other entry, its count the number of matched cells; and when the
    query and the cell's string are ASCII a cell is matched exactly when
    its string contains the query as a case-insensitive literal
    substring. *)
Theorem word_match_is_literal_substring (df : DataFrame)
    (column_query word_query : string) (p : DatasetStats) :
  well_formed df ->
  word_query <> "" ->
  analyze_dataframe df column_query word_query = Ok p ->
  (forall s, str_contains_nocase (str_lower word_query) (astype_str s)
             = map (cell_matches word_query) (values s)) /\
  (ascii_exact -> is_ascii word_query = true ->
   forall c, is_ascii (cell_str c) = true ->
     (cell_matches word_query c = true
      <-> ci_substring word_query (cell_str c))) /\
  Permutation
    (map (fun r => (WordResult.name r, WordResult.count r)) (word_results p))
    (filter (fun item => 0 <? snd item)
       (map (fun c => (fst c,
                       length (filter (cell_matches word_query)
                                 (values (snd c)))))
          (filter (fun c => negb (name_in (fst c) EXCLUDED_COLUMNS))
             (columns df)))) /\
  NoDup (map WordResult.name (word_results p)) /\
  (forall r, In r (word_results p) <->
     exists c, In c (columns df) /\
       name_in (fst c) EXCLUDED_COLUMNS = false /\
       WordResult.name r = fst c /\
       WordResult.count r
       = length (filter (cell_matches word_query) (values (snd c))) /\
       0 < WordResult.count r /\
       WordResult.percentage r = pct (WordResult.count r) (num_rows p)).
Proof.
  intros Hwf Hq. unfold analyze_dataframe.
  generalize EXCLUDED_COLUMNS as excluded. intros excluded H.
  apply (analyze_dataframe_with_inv _ _ _ _ _ Hwf) in H. subst p.
  unfold profile. cbn [word_results num_rows].
  apply str_truthy_iff in Hq. rewrite Hq.
  split; [intros s; apply mask_of_series|].
  split; [intros Hex Hw c Hc; apply cell_test_ascii; assumption|].
  pose proof (sort_desc_perm _ WordResult.count
                (flat_map (column_result (index_len df) word_query)
                   (included excluded df))) as Hperm.
  split.
  { rewrite <- (result_items (index_len df)).
    apply Permutation_map. exact Hperm. }
  split.
  { apply (Permutation_NoDup
             (Permutation_map WordResult.name (Permutation_sym Hperm))).
    apply result_names_NoDup. unfold included.
    apply NoDup_map_filter. apply Hwf. }
  intros r. split.
  - intros Hr.
    apply (Permutation_in _ Hperm) in Hr.
    apply in_flat_map in Hr. destruct Hr as [c [Hc Hr]].
    unfold column_result in Hr.
    destruct (Nat.ltb_spec 0 (match_count word_query (snd c))) as [Hpos|];
      [|contradiction].
    destruct Hr as [<-|[]]. simpl.
    unfold included in Hc. apply filter_In in Hc. destruct Hc as [Hc Hex].
    exists c. rewrite negb_true_iff in Hex.
    repeat split; try assumption. apply match_count_filter.
  - intros [c [Hc [Hex [Hname [Hcnt [Hpos Hpct]]]]]].
    apply (Permutation_in _ (Permutation_sym Hperm)).
    apply in_flat_map. exists c. split.
    + unfold included. apply filter_In. split; [exact Hc|].
      rewrite Hex. reflexivity.
    + unfold column_result. rewrite <- match_count_filter in Hcnt.
      rewrite <- Hcnt.
      destruct (Nat.ltb_spec 0 (WordResult.count r)) as [_|]; [|lia].
      left. destruct r; simpl in *. subst. reflexivity.
Qed.

(* ------------------------------------------------------------------ *)
(** ** The missing-value breakdown *)

Lemma breakdown_items (n : nat) (cs : list (string * series)) :
  map (fun b => (MissingBreakdown.name b, MissingBreakdown.missing_count b))
    (map (breakdown_of n) (filter (fun c => 0 <? isnull_sum (snd c)) cs))
  = filter (fun item : string * nat => 0 <? snd item)
      (map (fun c : string * series => (fst c, isnull_sum (snd c))) cs).
Proof.
  induction cs as [|c cs IH]; [reflexivity|].
  simpl. destruct (0 <? isnull_sum (snd c)); simpl; rewrite IH; reflexivity.
Qed.

Lemma breakdown_ties (n k : nat) (cs : list (string * series)) :
  map MissingBreakdown.name
    (filter (fun b => MissingBreakdown.missing_count b =? k)
       (map (breakdown_of n) (filter (fun c => 0 <? isnull_sum (snd c)) cs)))
  = map fst
      (filter (fun c => (0 <? isnull_sum (snd c)) && (isnull_sum (snd c) =? k))
         cs).
Proof.
  induction cs as [|c cs IH]; [reflexivity|].
  simpl. destruct (0 <? isnull_sum (snd c)); simpl; [|exact IH].
  destruct (isnull_sum (snd c) =? k); simpl; rewrite IH; reflexivity.
Qed.

(** C4: the breakdown has one entry for each column of the frame with a
    missing cell, excluded columns included, and no other entry; it is in
    descending order of [missing_count]; and entries with the same count
    stand in frame order. *)
Theorem missing_breakdown_sorted (df : DataFrame)
    (column_query word_query : string) (p : DatasetStats) :
  well_formed df ->
  analyze_dataframe df column_query word_query = Ok p ->
  Permutation
    (map (fun b => (MissingBreakdown.name b, MissingBreakdown.missing_count b))
       (missing_breakdown p))
    (filter (fun item => 0 <? snd item)
       (map (fun c => (fst c, isnull_sum (snd c))) (columns df))) /\
  NoDup (map MissingBreakdown.name (missing_breakdown p)) /\
  (forall c, In c (columns df) -> 0 < isnull_sum (snd c) ->
     exists b, In b (missing_breakdown p) /\
       MissingBreakdown.name b = fst c /\
       MissingBreakdown.missing_count b = isnull_sum (snd c)) /\
  StronglySorted
    (fun a b => MissingBreakdown.missing_count b
                <= MissingBreakdown.missing_count a)
    (missing_breakdown p) /\
  (forall k,
     map MissingBreakdown.name
       (filter (fun b => MissingBreakdown.missing_count b =? k)
          (missing_breakdown p))
     = map fst
         (filter (fun c => (0 <? isnull_sum (snd c))
                           && (isnull_sum (snd c) =? k))
            (columns df))).
Proof.
  intros Hwf H.
  apply (analyze_dataframe_with_inv _ _ _ _ _ Hwf) in H. subst p.
  unfold profile. cbn [missing_breakdown].
  set (pos := filter (fun c : string * series => 0 <? isnull_sum (snd c))
                (columns df)).
  set (n := index_len df).
  pose proof (sort_desc_perm _ MissingBreakdown.missing_count
                (map (breakdown_of n) pos)) as Hperm.
  split; [|split; [|split; [|split]]].
  - rewrite <- (breakdown_items n). apply Permutation_map. exact Hperm.
  - apply (Permutation_NoDup
             (Permutation_map MissingBreakdown.name (Permutation_sym Hperm))).
    rewrite map_map. simpl.
    apply NoDup_map_filter. apply Hwf.
  - intros c Hc Hpos. exists (breakdown_of n c). split; [|split; reflexivity].
    apply (Permutation_in _ (Permutation_sym Hperm)).
    apply in_map. unfold pos. apply filter_In. split; [exact Hc|].
    apply Nat.ltb_lt. exact Hpos.
  - apply (sort_desc_sorted _ MissingBreakdown.missing_count).
  - intros k. rewrite sort_desc_stable. apply breakdown_ties.
Qed.

(* ------------------------------------------------------------------ *)
(** ** Word examples *)

Lemma where_true_from_filter (mask : list bool) (i : nat) :
  where_true_from i mask
  = filter (fun j => nth (j - i) mask false) (seq i (length mask)).
Proof.
  revert i. induction mask as [|b mask IH]; intros i; [reflexivity|].
  simpl. rewrite Nat.sub_diag. rewrite IH.
  assert (Hext :
    filter (fun j => nth (j - S i) mask false) (seq (S i) (length mask))
    = filter (fun j => match j - i with 0 => b | S m => nth m mask false end)
        (seq (S i) (length mask))).
  { apply filter_ext_in. intros j Hj. apply in_seq in Hj.
    replace (j - i) with (S (j - S i)) by lia. reflexivity. }
  rewrite Hext. destruct b; reflexivity.
Qed.

(** The positions of the matched cells, in increasing order. *)
Lemma where_true_filter (mask : list bool) :
  where_true mask = filter (fun j => nth j mask false) (seq 0 (length mask)).
Proof.
  unfold where_true. rewrite where_true_from_filter.
  apply filter_ext. intros j. rewrite Nat.sub_0_r. reflexivity.
Qed.

Lemma matched_rows (word_query : string) (s : series) :
  where_true (match_mask word_query s)
  = filter (fun idx => cell_matches word_query (nth idx (values s) CNaN))
      (seq 0 (length (values s))).
Proof.
  rewrite where_true_filter, match_mask_length.
  apply filter_ext_in. intros j Hj. apply in_seq in Hj.
  unfold match_mask.
  rewrite (nth_indep _ false (cell_matches word_query CNaN))
    by (rewrite length_map; lia).
  apply map_nth.
Qed.

Lemma filter_firstn_length (A : Type) (f : A -> bool) (n : nat) (l : list A) :
  length (filter f (firstn n l)) <= length (filter f l).
Proof.
  rewrite <- (firstn_skipn n l) at 2.
  rewrite filter_app, length_app. lia.
Qed.

Lemma sum_nat_perm (l l' : list nat) :
  Permutation l l' -> sum_nat l = sum_nat l'.
Proof.
  induction 1; simpl; lia.
Qed.

Lemma column_examples_length (df : DataFrame) (word_query : string)
    (c : string * series) :
  length (column_examples df word_query c) <= 3.
Proof.
  unfold column_examples. rewrite length_map. apply firstn_le_length.
Qed.

Lemma column_examples_name (df : DataFrame) (word_query : string)
    (c : string * series) (e : WordExample.t) :
  In e (column_examples df word_query c) -> WordExample.name e = fst c.
Proof.
  unfold column_examples. intros H. apply in_map_iff in H.
  destruct H as [idx [<- _]]. reflexivity.
Qed.

Lemma filter_none (A : Type) (f : A -> bool) (l : list A) :
  (forall x, In x l -> f x = false) -> filter f l = [].
Proof.
  induction l as [|x l IH]; simpl; intros H; [reflexivity|].
  rewrite (H x (or_introl eq_refl)). apply IH.
  intros y Hy. apply H. right. exact Hy.
Qed.

Lemma examples_of_other_columns (df : DataFrame) (word_query col : string)
    (l : list (string * series)) :
  ~ In col (map fst l) ->
  filter (fun e => String.eqb (WordExample.name e) col)
    (flat_map (column_examples df word_query) l) = [].
Proof.
  intros Hnot. apply filter_none. intros e He.
  apply in_flat_map in He. destruct He as [c [Hc He]].
  apply column_examples_name in He.
  apply String.eqb_neq. intros Hname.
  apply Hnot. rewrite <- Hname, He. apply in_map. exact Hc.
Qed.

Lemma examples_per_column (df : DataFrame) (word_query col : string)
    (l : list (string * series)) :
  NoDup (map fst l) ->
  length (filter (fun e => String.eqb (WordExample.name e) col)
            (flat_map (column_examples df word_query) l)) <= 3.
Proof.
  induction l as [|c l IH]; simpl; intros Hnd; [lia|].
  inversion Hnd as [|? ? Hnotin Hnd']; subst.
  rewrite filter_app, length_app.
  destruct (String.eqb_spec (fst c) col) as [Heq|Hne].
  - rewrite (examples_of_other_columns df word_query col l)
      by (rewrite <- Heq; exact Hnotin).
    simpl. rewrite Nat.add_0_r.
    pose proof (filter_length_le
                  (fun e => String.eqb (WordExample.name e) col)
                  (column_examples df word_query c)).
    pose proof (column_examples_length df word_query c). lia.
  - rewrite (filter_none _ _ (column_examples df word_query c)).
    + simpl. apply IH. exact Hnd'.
    + intros e He. apply column_examples_name in He.
      apply String.eqb_neq. rewrite He. exact Hne.
Qed.

Lemma column_result_count_sum (n : nat) (word_query : string)
    (l : list (string * series)) :
  sum_nat (map WordResult.count (flat_map (column_result n word_query) l))
  = sum_nat (map (fun c => match_count word_query (snd c)) l).
Proof.
  induction l as [|c l IH]; [reflexivity|].
  simpl. rewrite map_app. unfold column_result at 1.
  destruct (Nat.ltb_spec 0 (match_count word_query (snd c))) as [Hpos|Hz];
    simpl; rewrite IH; lia.
Qed.

(** C5: under a non-empty [word_query] the example list has at most 10
    entries and at most 3 for any one column name; it is the first 10 of
    the per-column examples taken in column order, each column giving its
    first 3 matched rows in row order (the row number is [int] of the
    row's label plus 1, and [int] accepts each of these labels); every
    result's count is the full number of matched cells of its column, and
    [word_total_occurrences] is the sum of the full counts, equal to the
    sum of the counts in [word_results]. *)
Theorem word_examples_capped (df : DataFrame)
    (column_query word_query : string) (p : DatasetStats) :
  well_formed df ->
  word_query <> "" ->
  analyze_dataframe df column_query word_query = Ok p ->
  length (word_examples p) <= 10 /\
  (forall col,
     length (filter (fun e => String.eqb (WordExample.name e) col)
               (word_examples p)) <= 3) /\
  word_examples p
  = firstn 10
      (flat_map
         (fun c =>
            map (fun idx =>
                   WordExample.mk (fst c)
                     (label_number (row_label df idx) + 1)%Z
                     (cell_str (nth idx (values (snd c)) CNaN)))
              (firstn 3
                 (filter (fun idx => cell_matches word_query
                                       (nth idx (values (snd c)) CNaN))
                    (seq 0 (length (values (snd c)))))))
         (included EXCLUDED_COLUMNS df)) /\
  (forall c idx,
     In c (included EXCLUDED_COLUMNS df) ->
     In idx (firstn 3
               (filter (fun idx => cell_matches word_query
                                     (nth idx (values (snd c)) CNaN))
                  (seq 0 (length (values (snd c)))))) ->
     py_int (row_label df idx) = Ok (label_number (row_label df idx))) /\
  (forall r, In r (word_results p) ->
     exists c, In c (included EXCLUDED_COLUMNS df) /\
       WordResult.name r = fst c /\
       WordResult.count r
       = length (filter (cell_matches word_query) (values (snd c)))) /\
  word_total_occurrences p
  = sum_nat (map (fun c => length (filter (cell_matches word_query)
                                     (values (snd c))))
               (included EXCLUDED_COLUMNS df)) /\
  word_total_occurrences p = sum_nat (map WordResult.count (word_results p)).
Proof.
  intros Hwf Hq. unfold analyze_dataframe.
  generalize EXCLUDED_COLUMNS as excluded. intros excluded H.
  apply str_truthy_iff in Hq.
  pose proof (fun c i =>
                analyze_dataframe_with_labels excluded df column_query
                  word_query p c i Hwf Hq H) as Hlabels.
  apply (analyze_dataframe_with_inv _ _ _ _ _ Hwf) in H. subst p.
  unfold profile. cbn [word_examples word_results word_total_occurrences].
  rewrite Hq.
  assert (Hnd : NoDup (map fst (included excluded df))).
  { unfold included. apply NoDup_map_filter. apply Hwf. }
  split; [apply firstn_le_length|].
  split.
  { intros col.
    eapply Nat.le_trans; [apply filter_firstn_length|].
    apply examples_per_column. exact Hnd. }
  split.
  { f_equal. apply flat_map_ext. intros c.
    unfold column_examples. rewrite matched_rows. reflexivity. }
  split.
  { intros c idx Hc Hidx. apply (Hlabels c idx Hc).
    rewrite matched_rows. exact Hidx. }
  split.
  { intros r Hr.
    apply (Permutation_in _ (sort_desc_perm _ _ _)) in Hr.
    apply in_flat_map in Hr. destruct Hr as [c [Hc Hr]].
    unfold column_result in Hr.
    destruct (0 <? match_count word_query (snd c)); [|contradiction].
    destruct Hr as [<-|[]]. exists c. simpl.
    split; [exact Hc|]. split; [reflexivity | apply match_count_filter]. }
  split.
  { f_equal. apply map_ext. intros c. apply match_count_filter. }
  rewrite (sum_nat_perm _ _
             (Permutation_map WordResult.count (sort_desc_perm _ _ _))).
  symmetry. apply column_result_count_sum.
Qed.

(* ------------------------------------------------------------------ *)
(** ** Duplicate rows *)

(** [cell_eqb] decides [same_value]. *)
Lemma cell_eqb_same (a b : cell) : cell_eqb a b = true <-> same_value a b.
Proof.
  destruct a, b; simpl;
    try (split; [discriminate | intros H; inversion H]).
  - split; [intros _; constructor | reflexivity].
  - rewrite Z.eqb_eq.
    split; [intros ->; constructor | intros H; inversion H; reflexivity].
  - rewrite Qeq_bool_iff.
    split; [intros H; constructor; exact H | intros H; inversion H; assumption].
  - rewrite Bool.eqb_true_iff.
    split; [intros ->; constructor | intros H; inversion H; reflexivity].
  - rewrite String.eqb_eq.
    split; [intros ->; constructor | intros H; inversion H; reflexivity].
Qed.

(** Two rows are equal when they hold the same values cell by cell. *)
Lemma row_eqb_same (r1 r2 : list cell) :
  row_eqb r1 r2 = true <-> Forall2 same_value r1 r2.
Proof.
  revert r2. induction r1 as [|a r1 IH]; intros [|b r2]; simpl;
    try (split; [discriminate | intros H; inversion H]).
  - split; [intros _; constructor | reflexivity].
  - rewrite andb_true_iff, cell_eqb_same, IH.
    split; [intros [Ha Hr]; constructor; assumption
           | intros H; inversion H; subst; split; assumption].
Qed.

(** A row is flagged exactly when a row of the same values was seen
    before the scan started or stands earlier in the scanned list. *)
Lemma duplicated_scan_flag (rs : list (list cell)) :
  forall (seen : list (list cell)) (i : nat),
    nth i (duplicated_scan seen rs) false = true <->
    exists r, nth_error rs i = Some r /\
      ((exists x, In x seen /\ row_eqb r x = true) \/
       exists j x, j < i /\ nth_error rs j = Some x /\ row_eqb r x = true).
Proof.
  induction rs as [|r0 rs IH]; intros seen i.
  - simpl. destruct i; split; try discriminate;
      intros [r [H _]]; discriminate H.
  - destruct i as [|i]; simpl.
    + rewrite existsb_exists. split.
      * intros [x [Hx Heq]].
        exists r0. split; [reflexivity | left; exists x; tauto].
      * intros [r [Hr [[x [Hin Heq]]|[j [x [Hj _]]]]]]; [|lia].
        inversion Hr; subst r. exists x. tauto.
    + rewrite IH. split.
      * intros [r [Hr [[x [[<-|Hin] Heq]]|[j [x [Hj [Hjr Heq]]]]]]];
          exists r; (split; [exact Hr|]).
        -- right. exists 0, r0. split; [lia | split; [reflexivity | exact Heq]].
        -- left. exists x. tauto.
        -- right. exists (S j), x. split; [lia | tauto].
      * intros [r [Hr [[x [Hin Heq]]|[j [x [Hj [Hjr Heq]]]]]]];
          exists r; (split; [exact Hr|]).
        -- left. exists x. split; [right; exact Hin | exact Heq].
        -- destruct j as [|j]; simpl in Hjr.
           ++ left. exists x. split; [left; congruence | exact Heq].
           ++ right. exists j, x. split; [lia | tauto].
Qed.

Lemma duplicated_scan_length (rs seen : list (list cell)) :
  length (duplicated_scan seen rs) = length rs.
Proof.
  revert seen. induction rs as [|r rs IH]; intros seen; simpl;
    [reflexivity | rewrite IH; reflexivity].
Qed.

Lemma rows_length (df : DataFrame) : length (rows df) = index_len df.
Proof. unfold rows. rewrite length_map, length_seq. reflexivity. Qed.

Lemma rows_nth_error (df : DataFrame) (i : nat) :
  i < index_len df -> nth_error (rows df) i = Some (row_at df i).
Proof.
  intros Hi.
  rewrite (nth_error_nth' (rows df) (row_at df 0)) by (rewrite rows_length; exact Hi).
  unfold rows. rewrite map_nth, seq_nth by exact Hi. reflexivity.
Qed.

Lemma count_true_filter (mask : list bool) :
  count_true mask
  = length (filter (fun i => nth i mask false) (seq 0 (length mask))).
Proof.
  rewrite <- where_true_filter, where_true_length. reflexivity.
Qed.

(** The values of two rows compared in either order. *)
Lemma same_value_sym (a b : cell) : same_value a b -> same_value b a.
Proof.
  intros H. inversion H; subst; constructor. apply Qeq_sym. assumption.
Qed.

Lemma same_value_refl (a : cell) : same_value a a.
Proof. destruct a; constructor. apply Qeq_refl. Qed.

Lemma same_value_trans (a b c : cell) :
  same_value a b -> same_value b c -> same_value a c.
Proof.
  intros Hab Hbc. inversion Hab; subst; inversion Hbc; subst; constructor.
  eapply Qeq_trans; eassumption.
Qed.

Lemma same_values_sym (r1 r2 : list cell) :
  Forall2 same_value r1 r2 -> Forall2 same_value r2 r1.
Proof.
  induction 1; constructor; [apply same_value_sym|]; assumption.
Qed.

Lemma same_values_refl (r : list cell) : Forall2 same_value r r.
Proof. induction r; constructor; [apply same_value_refl | assumption]. Qed.

Lemma same_values_trans (r1 r2 r3 : list cell) :
  Forall2 same_value r1 r2 -> Forall2 same_value r2 r3 ->
  Forall2 same_value r1 r3.
Proof.
  intros H. revert r3. induction H as [|a b r1 r2 Hab _ IH]; intros r3 H3;
    inversion H3; subst; constructor.
  - eapply same_value_trans; eassumption.
  - apply IH. assumption.
Qed.

(** On a frame that is not empty, [duplicated] flags a row exactly when
    an earlier row holds the same values. *)
Lemma duplicated_flag (df : DataFrame) (i : nat) :
  df_empty df = false -> i < index_len df ->
  (nth i (duplicated df) false = true <->
   exists j, j < i /\ Forall2 same_value (row_at df j) (row_at df i)).
Proof.
  intros Hne Hi. unfold duplicated. rewrite Hne.
  rewrite duplicated_scan_flag.
  rewrite (rows_nth_error df i Hi). split.
  - intros [r [Hr [[x [[] _]]|[j [x [Hj [Hjr Heq]]]]]]].
    rewrite rows_nth_error in Hjr by lia.
    exists j. split; [exact Hj|].
    apply same_values_sym. apply row_eqb_same.
    inversion Hr; inversion Hjr; subst. exact Heq.
  - intros [j [Hj Heq]]. exists (row_at df i).
    split; [reflexivity|]. right. exists j, (row_at df j).
    split; [exact Hj|].
    rewrite rows_nth_error by lia. split; [reflexivity|].
    apply row_eqb_same. apply same_values_sym. exact Heq.
Qed.

Lemma duplicated_count (df : DataFrame) :
  df_empty df = false ->
  count_true (duplicated df)
  = length (filter (fun i => nth i (duplicated df) false)
              (seq 0 (index_len df))).
Proof.
  intros Hne. rewrite count_true_filter. unfold duplicated. rewrite Hne.
  rewrite duplicated_scan_length, rows_length. reflexivity.
Qed.

(** C8: on a frame with at least one column the duplicate count is the
    number of rows that hold, cell for cell, the same values as some
    earlier row (NaN the same as NaN, floats by value), every repeat
    after the first occurrence counting once; on a frame with no rows
    the count is 0, and so it is on a frame with no columns. *)
Theorem num_duplicates_counts_repeats (df : DataFrame)
    (column_query word_query : string) (p : DatasetStats) :
  well_formed df ->
  analyze_dataframe df column_query word_query = Ok p ->
  (columns df <> [] ->
   exists flag : nat -> bool,
     (forall i, i < index_len df ->
        (flag i = true <->
         exists j, j < i /\ Forall2 same_value (row_at df j) (row_at df i))) /\
     num_duplicates p = length (filter flag (seq 0 (index_len df)))) /\
  (index_len df = 0 \/ columns df = [] -> num_duplicates p = 0).
Proof.
  intros Hwf H.
  apply (analyze_dataframe_with_inv _ _ _ _ _ Hwf) in H. subst p.
  unfold profile. cbn [num_duplicates].
  split.
  - intros Hcols.
    destruct (Nat.eq_dec (index_len df) 0) as [Hn|Hn].
    + exists (fun _ => false). unfold duplicated, df_empty. rewrite Hn. simpl.
      split; [intros i Hi; lia | reflexivity].
    + assert (Hne : df_empty df = false).
      { unfold df_empty. apply orb_false_iff. split; apply Nat.eqb_neq;
          [exact Hn|]. intros Hm. apply length_zero_iff_nil in Hm.
        contradiction. }
      exists (fun i => nth i (duplicated df) false).
      split; [intros i Hi; apply duplicated_flag; assumption|].
      apply duplicated_count. exact Hne.
  - unfold duplicated, df_empty. intros [Hn|Hc].
    + rewrite Hn. reflexivity.
    + rewrite Hc. simpl. rewrite orb_true_r. reflexivity.
Qed.

(* ------------------------------------------------------------------ *)
(** ** Length of example values *)








(* ------------------------------------------------------------------ *)
(** ** The search of [streamlist.py] *)

(* ------------------------------------------------------------------ *)
(** ** Further properties of [analyze_dataframe] *)

Lemma ascii_lower_idem (c : ascii) : ascii_lower (ascii_lower c) = ascii_lower c.
Proof. destruct c as [[] [] [] [] [] [] [] []]; reflexivity. Qed.

Lemma lower_idem (s : string) : lower (lower s) = lower s.
Proof.
  unfold lower. induction s as [|c s IH]; simpl; [reflexivity|].
  rewrite ascii_lower_idem, IH. reflexivity.
Qed.

Lemma str_truthy_map_chars (f : ascii -> ascii) (s : string) :
  str_truthy (map_chars f s) = str_truthy s.
Proof. destruct s; reflexivity. Qed.

(** X1: the letter case of two ASCII queries does not matter:
    upper-casing or lower-casing both gives the same result, profile or
    exception. *)
Theorem queries_ignore_case (df : DataFrame) (column_query word_query : string) :
  ascii_exact ->
  is_ascii column_query = true ->
  is_ascii word_query = true ->
  analyze_dataframe df (upper column_query) (upper word_query)
  = analyze_dataframe df column_query word_query /\
  analyze_dataframe df (lower column_query) (lower word_query)
  = analyze_dataframe df column_query word_query.
Proof.
  intros [Hlow _] Hc Hw.
  assert (Hup : forall q, is_ascii q = true -> str_lower (upper q) = str_lower q).
  { intros q Hq. rewrite (Hlow q Hq).
    rewrite (Hlow (upper q)) by (rewrite is_ascii_upper; exact Hq).
    apply lower_upper. }
  assert (Hlo : forall q, is_ascii q = true -> str_lower (lower q) = str_lower q).
  { intros q Hq. rewrite (Hlow q Hq).
    rewrite (Hlow (lower q)) by (rewrite is_ascii_lower; exact Hq).
    apply lower_idem. }
  unfold analyze_dataframe, analyze_dataframe_with. split.
  - rewrite (Hup _ Hc), (Hup _ Hw). unfold upper.
    rewrite !str_truthy_map_chars. reflexivity.
  - rewrite (Hlo _ Hc), (Hlo _ Hw). unfold lower.
    rewrite !str_truthy_map_chars. reflexivity.
Qed.

Lemma name_in_iff (x : string) (l : list string) :
  name_in x l = true <-> In x l.
Proof.
  unfold name_in. rewrite existsb_exists. split.
  - intros [y [Hy Heq]]. apply String.eqb_eq in Heq. subst. exact Hy.
  - intros H. exists x. split; [exact H | apply String.eqb_refl].
Qed.

Lemma included_not_excluded (excluded : list string) (df : DataFrame)
    (c : string * series) :
  In c (included excluded df) -> ~ In (fst c) excluded.
Proof.
  unfold included. intros H. apply filter_In in H. destruct H as [_ H].
  rewrite negb_true_iff in H. intros Hin. apply name_in_iff in Hin. congruence.
Qed.

Lemma column_result_name (n : nat) (word_query : string) (c : string * series)
    (r : WordResult.t) :
  In r (column_result n word_query c) ->
  r = WordResult.mk (fst c) (match_count word_query (snd c))
        (pct (match_count word_query (snd c)) n) /\
  0 < match_count word_query (snd c).
Proof.
  unfold column_result.
  destruct (Nat.ltb_spec 0 (match_count word_query (snd c))) as [Hpos|];
    [|contradiction].
  intros [<-|[]]. split; [reflexivity | exact Hpos].
Qed.

(** X2: a column named in [EXCLUDED_COLUMNS] appears in none of
    [all_columns], [complete_columns], [filtered_columns], [word_results]
    and [word_examples], while [column_names] and [dtypes] list every
    column of the frame in order. *)
Theorem excluded_columns_stay_out (df : DataFrame)
    (column_query word_query : string) (p : DatasetStats) :
  well_formed df ->
  analyze_dataframe df column_query word_query = Ok p ->
  (forall col, In col EXCLUDED_COLUMNS ->
     ~ In col (map ColumnStatus.name (all_columns p)) /\
     ~ In col (complete_columns p) /\
     ~ In col (map ColumnStatus.name (filtered_columns p)) /\
     ~ In col (map WordResult.name (word_results p)) /\
     ~ In col (map WordExample.name (word_examples p))) /\
  column_names p = df_columns df /\
  map fst (dtypes p) = df_columns df.
Proof.
  intros Hwf. unfold analyze_dataframe.
  generalize EXCLUDED_COLUMNS as excluded. intros excluded H.
  apply (analyze_dataframe_with_inv _ _ _ _ _ Hwf) in H. subst p.
  unfold profile.
  cbn [all_columns complete_columns filtered_columns word_results
       word_examples column_names dtypes].
  split; [|split; [reflexivity | rewrite map_map; reflexivity]].
  intros col Hcol.
  assert (Hout : forall c, In c (included excluded df) -> fst c <> col).
  { intros c Hc Heq. apply (included_not_excluded _ _ _ Hc).
    rewrite Heq. exact Hcol. }
  split; [|split; [|split; [|split]]].
  - rewrite map_map. simpl. intros Hin.
    apply in_map_iff in Hin. destruct Hin as [c [Heq Hc]].
    exact (Hout c Hc Heq).
  - intros Hin. apply in_map_iff in Hin. destruct Hin as [c [Heq Hc]].
    apply filter_In in Hc. exact (Hout c (proj1 Hc) Heq).
  - intros Hin. apply in_map_iff in Hin. destruct Hin as [st [Heq Hst]].
    destruct (str_truthy column_query); [|contradiction].
    apply filter_In in Hst. destruct Hst as [Hst _].
    apply in_map_iff in Hst. destruct Hst as [c [<- Hc]].
    exact (Hout c Hc Heq).
  - intros Hin. apply in_map_iff in Hin. destruct Hin as [r [Heq Hr]].
    destruct (str_truthy word_query); [|contradiction].
    apply (Permutation_in _ (sort_desc_perm _ _ _)) in Hr.
    apply in_flat_map in Hr. destruct Hr as [c [Hc Hr]].
    apply column_result_name in Hr. destruct Hr as [-> _].
    exact (Hout c Hc Heq).
  - intros Hin. apply in_map_iff in Hin. destruct Hin as [e [Heq He]].
    destruct (str_truthy word_query); [|contradiction].
    apply firstn_In in He.
    apply in_flat_map in He. destruct He as [c [Hc He]].
    apply column_examples_name in He. rewrite He in Heq.
    exact (Hout c Hc Heq).
Qed.

Lemma match_count_le (word_query : string) (s : series) :
  match_count word_query s <= length (values s).
Proof. rewrite match_count_filter. apply filter_length_le. Qed.

Lemma pct_pos (a b : nat) : 0 < a -> a <= b -> (0 < pct a b)%Q.
Proof.
  intros Ha Hab.
  destruct (pct_bounds a b Hab) as [H0 _].
  apply Qle_lteq in H0. destruct H0 as [H0|H0]; [exact H0|].
  symmetry in H0. apply (pct_zero_iff a b Hab) in H0. lia.
Qed.

Lemma word_result_ties (n k : nat) (word_query : string)
    (l : list (string * series)) :
  map WordResult.name
    (filter (fun r => WordResult.count r =? k)
       (flat_map (column_result n word_query) l))
  = map fst
      (filter (fun c => (0 <? match_count word_query (snd c))
                        && (match_count word_query (snd c) =? k)) l).
Proof.
  induction l as [|c l IH]; [reflexivity|].
  simpl. rewrite filter_app, map_app, IH. unfold column_result.
  destruct (0 <? match_count word_query (snd c)); simpl; [|reflexivity].
  destruct (match_count word_query (snd c) =? k); reflexivity.
Qed.

Lemma word_result_names (n : nat) (word_query : string)
    (l : list (string * series)) :
  map WordResult.name (flat_map (column_result n word_query) l)
  = map fst (filter (fun c => 0 <? match_count word_query (snd c)) l).
Proof.
  induction l as [|c l IH]; [reflexivity|].
  simpl. rewrite map_app, IH. unfold column_result.
  destruct (0 <? match_count word_query (snd c)); reflexivity.
Qed.

(** X3: under a non-empty [word_query], [word_results] is in descending
    order of count, names no column twice, and results with equal counts
    stand in frame order. *)
Theorem word_results_sorted (df : DataFrame)
    (column_query word_query : string) (p : DatasetStats) :
  well_formed df ->
  word_query <> "" ->
  analyze_dataframe df column_query word_query = Ok p ->
  StronglySorted (fun a b => WordResult.count b <= WordResult.count a)
    (word_results p) /\
  NoDup (map WordResult.name (word_results p)) /\
  (forall k,
     map WordResult.name
       (filter (fun r => WordResult.count r =? k) (word_results p))
     = map fst
         (filter (fun c =>
                    let m := length (filter (cell_matches word_query)
                                       (values (snd c))) in
                    (0 <? m) && (m =? k))
            (included EXCLUDED_COLUMNS df))).
Proof.
  intros Hwf Hq. unfold analyze_dataframe.
  generalize EXCLUDED_COLUMNS as excluded. intros excluded H.
  apply (analyze_dataframe_with_inv _ _ _ _ _ Hwf) in H. subst p.
  unfold profile. cbn [word_results].
  apply str_truthy_iff in Hq. rewrite Hq.
  split; [apply (sort_desc_sorted _ WordResult.count)|].
  split.
  - apply (Permutation_NoDup
             (Permutation_map WordResult.name
                (Permutation_sym (sort_desc_perm _ WordResult.count _)))).
    rewrite word_result_names. apply NoDup_map_filter.
    unfold included. apply NoDup_map_filter. apply Hwf.
  - intros k. rewrite sort_desc_stable, word_result_ties.
    f_equal. apply filter_ext. intros c. cbv zeta.
    rewrite match_count_filter. reflexivity.
Qed.



Lemma flat_map_nil_inv (A B : Type) (g : A -> list B) (l : list A) :
  flat_map g l = [] -> forall x, In x l -> g x = [].
Proof.
  induction l as [|y l IH]; simpl; intros H x Hx; [contradiction|].
  apply app_eq_nil in H. destruct H as [Hy Hl].
  destruct Hx as [<-|Hx]; [exact Hy | apply IH; assumption].
Qed.

Lemma sum_nat_all_zero (A : Type) (f : A -> nat) (l : list A) :
  (forall x, In x l -> f x = 0) -> sum_nat (map f l) = 0.
Proof.
  induction l as [|y l IH]; simpl; intros H; [reflexivity|].
  rewrite (H y (or_introl eq_refl)). apply IH.
  intros x Hx. apply H. right. exact Hx.
Qed.

Lemma column_examples_nil_inv (df : DataFrame) (word_query : string)
    (c : string * series) :
  column_examples df word_query c = [] -> match_count word_query (snd c) = 0.
Proof.
  unfold column_examples. intros H. apply map_eq_nil in H.
  unfold match_count. rewrite <- where_true_length.
  destruct (where_true (match_mask word_query (snd c))); [reflexivity|].
  discriminate H.
Qed.

Lemma column_result_nil_inv (n : nat) (word_query : string)
    (c : string * series) :
  column_result n word_query c = [] -> match_count word_query (snd c) = 0.
Proof.
  unfold column_result.
  destruct (Nat.ltb_spec 0 (match_count word_query (snd c))) as [|Hz];
    [discriminate | lia].
Qed.

Lemma firstn_succ_nil (A : Type) (n : nat) (l : list A) :
  firstn (S n) l = [] -> l = [].
Proof. destruct l; [reflexivity | discriminate]. Qed.

(** X5: the three word-search fields are empty together: the total is 0
    exactly when there is no result, and there is no result exactly when
    there is no example. *)
Theorem word_fields_empty_together (df : DataFrame)
    (column_query word_query : string) (p : DatasetStats) :
  well_formed df ->
  analyze_dataframe df column_query word_query = Ok p ->
  (word_total_occurrences p = 0 <-> word_results p = []) /\
  (word_results p = [] <-> word_examples p = []).
Proof.
  intros Hwf. unfold analyze_dataframe.
  generalize EXCLUDED_COLUMNS as excluded. intros excluded H.
  apply (analyze_dataframe_with_inv _ _ _ _ _ Hwf) in H. subst p.
  unfold profile. cbn [word_results word_examples word_total_occurrences].
  destruct (str_truthy word_query); [|tauto].
  set (inc := included excluded df).
  set (n := index_len df).
  assert (Hres : sort_desc WordResult.count (flat_map (column_result n word_query) inc) = []
                 <-> forall c, In c inc -> match_count word_query (snd c) = 0).
  { split.
    - intros Hnil c Hc. apply (column_result_nil_inv n).
      apply (flat_map_nil_inv _ _ _ inc); [|exact Hc].
      apply Permutation_nil. rewrite <- Hnil at 1.
      apply sort_desc_perm.
    - intros Hz. rewrite flat_map_nil; [reflexivity|].
      intros c Hc. apply column_result_none. apply Hz. exact Hc. }
  split.
  - rewrite Hres. split.
    + intros Hsum c Hc.
      apply (sum_nat_zero _ (fun c => match_count word_query (snd c)) inc Hsum c Hc).
    + apply sum_nat_all_zero.
  - rewrite Hres. split.
    + intros Hz. rewrite flat_map_nil; [reflexivity|].
      intros c Hc. apply column_examples_none. apply Hz. exact Hc.
    + intros Hnil c Hc. apply (column_examples_nil_inv df).
      apply firstn_succ_nil in Hnil.
      apply (flat_map_nil_inv _ _ _ inc Hnil c Hc).
Qed.

Lemma sum_nat_filter_pos (A : Type) (f : A -> nat) (l : list A) :
  sum_nat (map f (filter (fun x => 0 <? f x) l)) = sum_nat (map f l).
Proof.
  induction l as [|x l IH]; simpl; [reflexivity|].
  destruct (Nat.ltb_spec 0 (f x)) as [Hpos|Hz]; simpl; rewrite IH; lia.
Qed.

(** X6: the breakdown accounts for every missing cell: its counts sum
    to [total_missing]; each entry has a count between 1 and the row
    count and a percentage, count / N * 100, above 0 and at most 100. *)
Theorem missing_breakdown_accounts_for_total (df : DataFrame)
    (column_query word_query : string) (p : DatasetStats) :
  well_formed df ->
  analyze_dataframe df column_query word_query = Ok p ->
  sum_nat (map MissingBreakdown.missing_count (missing_breakdown p))
  = total_missing p /\
  Forall (fun b =>
            1 <= MissingBreakdown.missing_count b <= num_rows p /\
            MissingBreakdown.percentage b
            = pct (MissingBreakdown.missing_count b) (num_rows p) /\
            (0 < MissingBreakdown.percentage b <= 100)%Q)
    (missing_breakdown p).
Proof.
  intros Hwf H.
  apply (analyze_dataframe_with_inv _ _ _ _ _ Hwf) in H. subst p.
  unfold profile. cbn [missing_breakdown total_missing num_rows].
  split.
  - rewrite (sum_nat_perm _ _
               (Permutation_map MissingBreakdown.missing_count
                  (sort_desc_perm _ MissingBreakdown.missing_count _))).
    rewrite map_map. simpl.
    apply (sum_nat_filter_pos _ (fun c => isnull_sum (snd c))).
  - apply Forall_forall. intros b Hb.
    apply (Permutation_in _ (sort_desc_perm _ _ _)) in Hb.
    apply in_map_iff in Hb. destruct Hb as [c [<- Hc]].
    apply filter_In in Hc. destruct Hc as [Hc Hpos].
    apply Nat.ltb_lt in Hpos. simpl.
    assert (Hle : isnull_sum (snd c) <= index_len df).
    { rewrite <- (column_rectangular df c Hwf Hc).
      pose proof (isnull_notna_sum (snd c)). lia. }
    split; [lia|]. split; [reflexivity|].
    split; [apply pct_pos; lia | apply pct_bounds; exact Hle].
Qed.

(** X9: every word result has a count between 1 and the row count and
    a percentage, count / N * 100, above 0 and at most 100; the total
    is at most N times the number of included columns. *)
Theorem word_result_bounds (df : DataFrame)
    (column_query word_query : string) (p : DatasetStats) :
  well_formed df ->
  analyze_dataframe df column_query word_query = Ok p ->
  Forall (fun r =>
            1 <= WordResult.count r <= num_rows p /\
            WordResult.percentage r = pct (WordResult.count r) (num_rows p) /\
            (0 < WordResult.percentage r <= 100)%Q)
    (word_results p) /\
  word_total_occurrences p <= num_rows p * length (all_columns p).
Proof.
  intros Hwf. unfold analyze_dataframe.
  generalize EXCLUDED_COLUMNS as excluded. intros excluded H.
  apply (analyze_dataframe_with_inv _ _ _ _ _ Hwf) in H. subst p.
  unfold profile.
  cbn [word_results word_total_occurrences num_rows all_columns].
  assert (Hle : forall c, In c (included excluded df) ->
                  match_count word_query (snd c) <= index_len df).
  { intros c Hc. apply included_In in Hc.
    rewrite <- (column_rectangular df c Hwf Hc). apply match_count_le. }
  destruct (str_truthy word_query); [|split; [constructor | lia]].
  split.
  - apply Forall_forall. intros r Hr.
    apply (Permutation_in _ (sort_desc_perm _ _ _)) in Hr.
    apply in_flat_map in Hr. destruct Hr as [c [Hc Hr]].
    apply column_result_name in Hr. destruct Hr as [-> Hpos]. simpl.
    specialize (Hle c Hc).
    split; [lia|]. split; [reflexivity|].
    split; [apply pct_pos; lia | apply pct_bounds; exact Hle].
  - rewrite length_map. apply sum_nat_bound.
    apply Forall_forall. exact Hle.
Qed.

(** X7: on a frame with at least one column, the duplicate count and
    the number of distinct rows add up to the row count: the rows that
    are not flagged hold pairwise different values, every row holds the
    values of one of them, and there are [num_rows - num_duplicates] of
    them. *)
Theorem duplicates_and_distinct_rows (df : DataFrame)
    (column_query word_query : string) (p : DatasetStats) :
  well_formed df ->
  columns df <> [] ->
  analyze_dataframe df column_query word_query = Ok p ->
  exists firsts : list nat,
    NoDup firsts /\
    (forall i, In i firsts -> i < index_len df) /\
    (forall i j, In i firsts -> In j firsts ->
       Forall2 same_value (row_at df i) (row_at df j) -> i = j) /\
    (forall i, i < index_len df ->
       exists j, In j firsts /\ j <= i /\
         Forall2 same_value (row_at df j) (row_at df i)) /\
    num_duplicates p + length firsts = num_rows p.
Proof.
  intros Hwf Hcols H.
  apply (analyze_dataframe_with_inv _ _ _ _ _ Hwf) in H. subst p.
  unfold profile. cbn [num_duplicates num_rows].
  destruct (Nat.eq_dec (index_len df) 0) as [Hn|Hn].
  { exists []. split; [constructor|]. split; [intros i []|].
    split; [intros i j []|]. split; [intros i Hi; lia|].
    unfold duplicated, df_empty. rewrite Hn. reflexivity. }
  assert (Hne : df_empty df = false).
  { unfold df_empty. apply orb_false_iff. split; apply Nat.eqb_neq;
      [exact Hn|]. intros Hm. apply length_zero_iff_nil in Hm. contradiction. }
  set (flag := fun i => nth i (duplicated df) false).
  exists (filter (fun i => negb (flag i)) (seq 0 (index_len df))).
  assert (Hin : forall i,
            In i (filter (fun i => negb (flag i)) (seq 0 (index_len df)))
            <-> i < index_len df /\ flag i = false).
  { intros i. rewrite filter_In, in_seq, negb_true_iff.
    split; intros [H1 H2]; (split; [lia | exact H2]). }
  split; [apply NoDup_filter, seq_NoDup|].
  split; [intros i Hi; apply Hin in Hi; tauto|].
  split.
  { intros i j Hi Hj Hsame. apply Hin in Hi, Hj.
    destruct Hi as [Hi Hfi], Hj as [Hj Hfj].
    destruct (Nat.lt_trichotomy i j) as [Hlt|[Heq|Hgt]]; [|exact Heq|]; exfalso.
    - assert (Ht : flag j = true).
      { apply (duplicated_flag df j Hne Hj). exists i. split; assumption. }
      congruence.
    - assert (Ht : flag i = true).
      { apply (duplicated_flag df i Hne Hi). exists j.
        split; [exact Hgt | apply same_values_sym; exact Hsame]. }
      congruence. }
  split.
  { intros i. induction i as [i IH] using lt_wf_ind. intros Hi.
    destruct (flag i) eqn:Hf.
    - apply (duplicated_flag df i Hne Hi) in Hf.
      destruct Hf as [j [Hj Hsame]].
      destruct (IH j Hj) as [k [Hk [Hkj Hsame']]]; [lia|].
      exists k. split; [exact Hk|]. split; [lia|].
      apply (same_values_trans _ (row_at df j)); assumption.
    - exists i. split; [apply Hin; split; assumption|].
      split; [lia | apply same_values_refl]. }
  assert (Hsplit : forall l : list nat,
            length (filter flag l)
            + length (filter (fun i => negb (flag i)) l) = length l).
  { induction l as [|x l IH]; simpl; [reflexivity|].
    destruct (flag x); simpl; lia. }
  rewrite (duplicated_count df Hne).
  change (fun i => nth i (duplicated df) false) with flag.
  rewrite Hsplit. apply length_seq.
Qed.

(* ------------------------------------------------------------------ *)
(** ** The dataset store *)

Lemma dict_get_set_same {V} (k : string) (v : V) (d : dict V) :
  dict_get k (dict_set k v d) = Some v.
Proof.
  induction d as [|[k' v'] d IH]; simpl.
  - rewrite String.eqb_refl. reflexivity.
  - destruct (String.eqb_spec k k') as [->|Hne]; simpl.
    + rewrite String.eqb_refl. reflexivity.
    + destruct (String.eqb_spec k k'); [contradiction | exact IH].
Qed.

Lemma dict_get_set_other {V} (k k' : string) (v : V) (d : dict V) :
  k' <> k -> dict_get k' (dict_set k v d) = dict_get k' d.
Proof.
  intros Hne. induction d as [|[k0 v0] d IH]; simpl.
  - destruct (String.eqb_spec k' k); [contradiction | reflexivity].
  - destruct (String.eqb_spec k k0) as [->|Hk]; simpl.
    + destruct (String.eqb_spec k' k0); [contradiction | reflexivity].
    + destruct (String.eqb_spec k' k0); [reflexivity | exact IH].
Qed.

Lemma dict_get_pop_same {V} (k : string) (d : dict V) :
  dict_get k (dict_pop k d) = None.
Proof.
  induction d as [|[k' v'] d IH]; simpl; [reflexivity|].
  destruct (String.eqb_spec k k') as [->|Hne]; simpl; [exact IH|].
  destruct (String.eqb_spec k k'); [contradiction | exact IH].
Qed.

Lemma dict_get_pop_other {V} (k k' : string) (d : dict V) :
  k' <> k -> dict_get k' (dict_pop k d) = dict_get k' d.
Proof.
  intros Hne. induction d as [|[k0 v0] d IH]; simpl; [reflexivity|].
  destruct (String.eqb_spec k k0) as [->|Hk]; simpl.
  - destruct (String.eqb_spec k' k0); [contradiction | exact IH].
  - destruct (String.eqb_spec k' k0); [reflexivity | exact IH].
Qed.

Lemma dict_set_length {V} (k : string) (v : V) (d : dict V) :
  length (dict_set k v d) <= S (length d).
Proof.
  induction d as [|[k' v'] d IH]; simpl; [lia|].
  destruct (String.eqb k k'); simpl; lia.
Qed.

Lemma dict_pop_length {V} (k : string) (d : dict V) :
  length (dict_pop k d) <= length d /\
  (dict_mem k d = true -> length (dict_pop k d) < length d).
Proof.
  unfold dict_mem. induction d as [|[k' v'] d [IH1 IH2]]; simpl.
  - split; [lia | discriminate].
  - destruct (String.eqb k k'); simpl; split; intros; try lia.
    specialize (IH2 H). lia.
Qed.

Lemma dict_set_In {V} (k : string) (v : V) (d : dict V) (kv : string * V) :
  In kv (dict_set k v d) -> kv = (k, v) \/ In kv d.
Proof.
  induction d as [|[k' v'] d IH]; simpl.
  - intros [<-|[]]. left. reflexivity.
  - destruct (String.eqb k k'); simpl.
    + intros [<-|H]; [left; reflexivity | right; right; exact H].
    + intros [<-|H]; [right; left; reflexivity|].
      destruct (IH H); [left | right; right]; assumption.
Qed.

Lemma dict_pop_In {V} (k : string) (d : dict V) (kv : string * V) :
  In kv (dict_pop k d) -> In kv d.
Proof.
  induction d as [|[k' v'] d IH]; simpl; [tauto|].
  destruct (String.eqb k k'); simpl; [intros H; right; apply IH; exact H|].
  intros [<-|H]; [left; reflexivity | right; apply IH; exact H].
Qed.

Lemma dict_get_In {V} (k : string) (v : V) (d : dict V) :
  dict_get k d = Some v -> In (k, v) d.
Proof.
  induction d as [|[k' v'] d IH]; simpl; [discriminate|].
  destruct (String.eqb_spec k k') as [->|Hne].
  - intros H. inversion H. left. reflexivity.
  - intros H. right. apply IH. exact H.
Qed.

Lemma set_then_get_dataset_aux (df : DataFrame) (upload_id : string) (w : world) :
  upload_id <> "" ->
  _get_dataset (_set_dataset df upload_id w) = Some df /\
  session_upload_id (_set_dataset df upload_id w) = Some upload_id.
Proof.
  intros Hid. unfold _get_dataset, _set_dataset. simpl.
  apply str_truthy_iff in Hid. rewrite Hid. simpl.
  split; [apply dict_get_set_same | reflexivity].
Qed.

(** X10: a stored dataset is the one read back: after [_set_dataset]
    with a non-empty id, [_get_dataset] returns the frame just stored,
    whatever the session and the store held before. *)
Theorem set_then_get_dataset (df : DataFrame) (upload_id : string) (w : world) :
  upload_id <> "" ->
  _get_dataset (_set_dataset df upload_id w) = Some df /\
  session_upload_id (_set_dataset df upload_id w) = Some upload_id.
Proof.
  intros Hid. unfold _get_dataset, _set_dataset. simpl.
  apply str_truthy_iff in Hid. rewrite Hid. simpl.
  split; [apply dict_get_set_same | reflexivity].
Qed.

(** X11: a new upload replaces the session's previous dataset: the old
    id is gone from [DATASETS], the datasets under every other id are
    untouched, and the store holds at most one entry more than before,
    and no more than before when the old dataset was still stored. *)
Theorem set_dataset_replaces_old (df : DataFrame) (upload_id old_id : string)
    (w : world) :
  session_upload_id w = Some old_id ->
  old_id <> "" ->
  old_id <> upload_id ->
  dict_get old_id (DATASETS (_set_dataset df upload_id w)) = None /\
  (forall k, k <> upload_id -> k <> old_id ->
     dict_get k (DATASETS (_set_dataset df upload_id w))
     = dict_get k (DATASETS w)) /\
  length (DATASETS (_set_dataset df upload_id w)) <= S (length (DATASETS w)) /\
  (dict_mem old_id (DATASETS w) = true ->
   length (DATASETS (_set_dataset df upload_id w)) <= length (DATASETS w)).
Proof.
  intros Hs Hold Hne. unfold _set_dataset. rewrite Hs. simpl.
  apply str_truthy_iff in Hold. rewrite Hold. simpl.
  destruct (dict_mem old_id (DATASETS w)) eqn:Hmem.
  - split; [|split; [|split]].
    + rewrite dict_get_set_other by exact Hne. apply dict_get_pop_same.
    + intros k Hk1 Hk2. rewrite dict_get_set_other by exact Hk1.
      apply dict_get_pop_other. exact Hk2.
    + pose proof (dict_set_length upload_id df (dict_pop old_id (DATASETS w))).
      pose proof (proj1 (dict_pop_length old_id (DATASETS w))). lia.
    + intros _.
      pose proof (dict_set_length upload_id df (dict_pop old_id (DATASETS w))).
      pose proof (proj2 (dict_pop_length old_id (DATASETS w)) Hmem). lia.
  - split; [|split; [|split]].
    + rewrite dict_get_set_other by exact Hne.
      unfold dict_mem in Hmem.
      destruct (dict_get old_id (DATASETS w)); [discriminate | reflexivity].
    + intros k Hk1 _. apply dict_get_set_other. exact Hk1.
    + apply dict_set_length.
    + discriminate.
Qed.

(** X12: after [_clear_dataset] the session has no dataset: its id is
    forgotten, [_get_dataset] returns [None], the entry stored under the
    session's id is removed, and the datasets under every other id are
    untouched. *)
Theorem clear_dataset_forgets (w : world) :
  session_upload_id (_clear_dataset w) = None /\
  _get_dataset (_clear_dataset w) = None /\
  (forall upload_id, session_upload_id w = Some upload_id ->
     upload_id <> "" ->
     dict_get upload_id (DATASETS (_clear_dataset w)) = None) /\
  (forall k, session_upload_id w <> Some k ->
     dict_get k (DATASETS (_clear_dataset w)) = dict_get k (DATASETS w)).
Proof.
  unfold _clear_dataset, _get_dataset.
  destruct (session_upload_id w) as [id|] eqn:Hs.
  - destruct (str_truthy id) eqn:Hid; simpl.
    + split; [reflexivity|]. split; [reflexivity|]. split.
      * intros u Hu _. inversion Hu; subst. apply dict_get_pop_same.
      * intros k Hk. apply dict_get_pop_other. congruence.
    + split; [reflexivity|]. split; [reflexivity|]. split.
      * intros u Hu Hne. inversion Hu; subst.
        apply str_truthy_iff in Hne. congruence.
      * reflexivity.
  - simpl. split; [reflexivity|]. split; [reflexivity|].
    split; [discriminate | reflexivity].
Qed.

(* ------------------------------------------------------------------ *)
(** ** Suffixes, stripping and [head] *)

Lemma endswith_iff (s suffix : string) :
  endswith s suffix = true <-> exists pre, s = (pre ++ suffix)%string.
Proof.
  induction s as [|c s IH]; cbn [endswith].
  - rewrite orb_false_r, String.eqb_eq. split.
    + intros <-. exists EmptyString. reflexivity.
    + intros [pre H]. destruct pre; simpl in H; [exact H | discriminate].
  - rewrite orb_true_iff, String.eqb_eq, IH. split.
    + intros [<-|[pre ->]].
      * exists EmptyString. reflexivity.
      * exists (String c pre). reflexivity.
    + intros [pre H]. destruct pre as [|a pre]; simpl in H.
      * left. exact H.
      * right. exists pre. inversion H. reflexivity.
Qed.

Lemma all_space_strip (s : string) : all_space s = true -> strip s = "".
Proof.
  unfold strip. intros H.
  assert (Hl : lstrip s = "").
  { induction s as [|c s IH]; simpl in *; [reflexivity|].
    apply andb_true_iff in H. destruct H as [Hc Hs]. rewrite Hc. apply IH. exact Hs. }
  rewrite Hl. reflexivity.
Qed.

Lemma values_series_head (n : nat) (s : series) :
  values (series_head n s) = firstn n (values s).
Proof. destruct s; simpl; symmetry; apply firstn_map. Qed.

Lemma nth_firstn_lt (A : Type) (n i : nat) (l : list A) (d : A) :
  i < n -> nth i (firstn n l) d = nth i l d.
Proof.
  revert i l. induction n as [|n IH]; intros i l Hi; [lia|].
  destruct l as [|x l]; [reflexivity|].
  destruct i as [|i]; simpl; [reflexivity|]. apply IH. lia.
Qed.

Lemma NoDup_firstn (A : Type) (n : nat) (l : list A) :
  NoDup l -> NoDup (firstn n l).
Proof.
  revert l. induction n as [|n IH]; intros l H; [constructor|].
  destruct l as [|x l]; [constructor|].
  inversion H as [|? ? Hnotin Hnd]; subst. simpl. constructor.
  - intros Hin. apply Hnotin. apply firstn_In in Hin. exact Hin.
  - apply IH. exact Hnd.
Qed.

(** X14: [df.head(n)], the frame the preview is rendered from, keeps
    the first [min n N] rows unchanged and every column with its name
    and dtype, and is well formed when the frame is. *)
Theorem head_keeps_first_rows (n : nat) (df : DataFrame) :
  well_formed df ->
  well_formed (head n df) /\
  index_len (head n df) = Nat.min n (index_len df) /\
  df_columns (head n df) = df_columns df /\
  map (fun c => series_dtype (snd c)) (columns (head n df))
  = map (fun c => series_dtype (snd c)) (columns df) /\
  (forall i, i < Nat.min n (index_len df) ->
     row_at (head n df) i = row_at df i).
Proof.
  intros [[Hrect Hnd] Hidx]. unfold head, df_columns, row_at, index_len. simpl.
  split; [split; [split|]|].
  - simpl. apply Forall_forall. intros c Hc.
    apply in_map_iff in Hc. destruct Hc as [c0 [<- Hc0]]. simpl.
    rewrite values_series_head. unfold index_len. simpl.
    rewrite !length_firstn.
    rewrite Forall_forall in Hrect. rewrite (Hrect c0 Hc0). reflexivity.
  - simpl. rewrite map_map. simpl. exact Hnd.
  - simpl. apply NoDup_firstn. exact Hidx.
  - split; [apply length_firstn|]. split; [rewrite map_map; reflexivity|].
    split.
    + rewrite map_map. apply map_ext. intros c. simpl.
      destruct (snd c); reflexivity.
    + intros i Hi. rewrite map_map. apply map_ext. intros c. simpl.
      rewrite values_series_head. apply nth_firstn_lt. fold (index_len df) in Hi. lia.
Qed.

(* ------------------------------------------------------------------ *)
(** ** The routes *)

(** X15: what a POST does.  It always answers with a redirect.  The
    upload is stored, under the fresh id, exactly when a file came with
    a name ending in ".csv" in any letter case, [read_csv] read it, and
    the frame is not empty; every other POST leaves the session and the
    store as they were. *)
Theorem post_stores_only_valid_csv (req : request) (new_id : string) (w : world) :
  method req = POST ->
  exists m w',
    index req new_id w = Ok (Redirect m, w') /\
    (m = UploadedAndAnalyzed <->
     exists f df stem ext,
       file req = Some f /\
       filename f = (stem ++ ext)%string /\ lower ext = ".csv" /\
       read_csv f = Some df /\ df_empty df = false) /\
    (m = UploadedAndAnalyzed ->
     exists f df, file req = Some f /\ read_csv f = Some df /\
                  w' = _set_dataset df new_id w) /\
    (m <> UploadedAndAnalyzed -> w' = w).
Proof.
  intros Hm. unfold index. rewrite Hm.
  assert (Hcsv : forall name, endswith (lower name) ".csv" = true <->
                   exists stem ext, name = (stem ++ ext)%string /\ lower ext = ".csv").
  { intros name. rewrite endswith_iff. split.
    - intros [pre H]. apply map_chars_split in H.
      destruct H as [s1 [s2 [-> [_ H2]]]]. exists s1, s2. split; [reflexivity | exact H2].
    - intros [stem [ext [-> Hext]]]. exists (lower stem).
      unfold lower. rewrite map_chars_app. fold (lower ext). rewrite Hext. reflexivity. }
  destruct (file req) as [f|] eqn:Hf.
  2:{ exists ChooseValidCsv, w. split; [reflexivity|].
      split; [split; [discriminate | intros [f [df [s1 [s2 [H _]]]]]; discriminate]|].
      split; [discriminate | reflexivity]. }
  destruct (str_truthy (filename f)) eqn:Hname; simpl.
  2:{ exists ChooseValidCsv, w. split; [reflexivity|].
      split; [split; [discriminate|]|split; [discriminate | reflexivity]].
      intros [f' [df [s1 [s2 [Hf' [Hn [Hext _]]]]]]]. inversion Hf'; subst f'.
      destruct (filename f); [|discriminate].
      destruct s1; [|discriminate]. simpl in Hn. subst s2. discriminate. }
  destruct (endswith (lower (filename f)) ".csv") eqn:Hend; simpl.
  2:{ exists OnlyCsvAllowed, w. split; [reflexivity|].
      split; [split; [discriminate|]|split; [discriminate | reflexivity]].
      intros [f' [df [s1 [s2 [Hf' [Hn [Hext _]]]]]]]. inversion Hf'; subst f'.
      assert (H : endswith (lower (filename f)) ".csv" = true)
        by (apply Hcsv; exists s1, s2; split; assumption).
      congruence. }
  destruct (read_csv f) as [df|] eqn:Hread.
  2:{ exists CouldNotRead, w. split; [reflexivity|].
      split; [split; [discriminate|]|split; [discriminate | reflexivity]].
      intros [f' [df [s1 [s2 [Hf' [_ [_ [Hr _]]]]]]]]. inversion Hf'; subst f'.
      congruence. }
  destruct (df_empty df) eqn:Hempty.
  - exists FileHasNoData, w. split; [reflexivity|].
    split; [split; [discriminate|]|split; [discriminate | reflexivity]].
    intros [f' [df' [s1 [s2 [Hf' [_ [_ [Hr He]]]]]]]]. inversion Hf'; subst f'.
    congruence.
  - exists UploadedAndAnalyzed, (_set_dataset df new_id w).
    split; [reflexivity|].
    split; [split; [intros _|reflexivity]|split; [intros _|congruence]].
    + apply Hcsv in Hend. destruct Hend as [stem [ext [Hn Hext]]].
      exists f, df, stem, ext. repeat split; assumption.
    + exists f, df. repeat split; assumption.
Qed.

Lemma endswith_csv_named (name : string) :
  endswith (lower name) ".csv" = true -> str_truthy name = true.
Proof. destruct name; [discriminate | reflexivity]. Qed.

Lemma analyze_dataframe_returns (df : DataFrame)
    (column_query word_query : string) :
  well_formed df -> int_labels df ->
  exists p, analyze_dataframe df column_query word_query = Ok p.
Proof.
  intros Hwf Hint. eexists.
  apply analyze_dataframe_with_profile; [exact Hwf | right; exact Hint].
Qed.

(** X16: upload, then view.  After a well-formed, non-empty frame with
    integer row labels is posted under a ".csv" name, a GET of the same
    session with ASCII search fields renders the profile of exactly
    that frame for the stripped queries, together with its first 10
    rows as preview, and changes nothing. *)
Theorem upload_then_view (df : DataFrame) (name new_id later_id : string)
    (posted viewed : request) (w : world) :
  well_formed df ->
  int_labels df ->
  is_ascii (column_search viewed) = true ->
  is_ascii (word_search viewed) = true ->
  df_empty df = false ->
  endswith (lower name) ".csv" = true ->
  new_id <> "" ->
  method posted = POST ->
  file posted = Some (mkUpload name (Some df)) ->
  method viewed = GET ->
  exists w1 stats,
    index posted new_id w = Ok (Redirect UploadedAndAnalyzed, w1) /\
    analyze_dataframe df (strip (column_search viewed))
      (strip (word_search viewed)) = Ok stats /\
    index viewed later_id w1
    = Ok (Render (Some stats) (Some (head 10 df))
            (strip (column_search viewed)) (strip (word_search viewed)),
          w1).
Proof.
  intros Hwf Hint _ _ Hne Hcsv Hid Hpost Hfile Hget.
  destruct (analyze_dataframe_returns df
              (strip (column_search viewed)) (strip (word_search viewed))
              Hwf Hint)
    as [stats Hstats].
  exists (_set_dataset df new_id w), stats.
  split; [|split; [exact Hstats|]].
  - unfold index. rewrite Hpost, Hfile. simpl.
    rewrite (endswith_csv_named name Hcsv), Hcsv, Hne. reflexivity.
  - unfold index. rewrite Hget.
    rewrite (proj1 (set_then_get_dataset_aux df new_id w Hid)).
    rewrite Hstats. reflexivity.
Qed.

(** X17: no empty frame is ever stored or analysed.  If every stored
    frame is non-empty, it is still so after any request to [index] and
    after [reset]; the frame [_get_dataset] then hands to the analysis
    is non-empty; and a GET changes neither session nor store. *)
Theorem stored_frames_never_empty (req : request) (new_id : string)
    (w w' : world) (resp : response) :
  Forall (fun kv => df_empty (snd kv) = false) (DATASETS w) ->
  index req new_id w = Ok (resp, w') ->
  Forall (fun kv => df_empty (snd kv) = false) (DATASETS w') /\
  (forall df, _get_dataset w' = Some df -> df_empty df = false) /\
  (method req = GET -> w' = w) /\
  Forall (fun kv => df_empty (snd kv) = false) (DATASETS (snd (reset w))).
Proof.
  intros Hinv Hidx.
  assert (Hpop : forall k, Forall (fun kv : string * DataFrame =>
                                     df_empty (snd kv) = false)
                             (dict_pop k (DATASETS w))).
  { intros k. apply Forall_forall. intros kv Hkv.
    apply dict_pop_In in Hkv. rewrite Forall_forall in Hinv.
    apply Hinv. exact Hkv. }
  assert (Hget : forall w0,
            Forall (fun kv => df_empty (snd kv) = false) (DATASETS w0) ->
            forall df, _get_dataset w0 = Some df -> df_empty df = false).
  { intros w0 H0 df. unfold _get_dataset.
    destruct (session_upload_id w0) as [id|]; [|discriminate].
    destruct (str_truthy id); simpl; [|discriminate].
    intros H. apply dict_get_In in H. rewrite Forall_forall in H0.
    apply (H0 (id, df) H). }
  assert (Hreset : Forall (fun kv => df_empty (snd kv) = false)
                     (DATASETS (snd (reset w)))).
  { unfold reset, _clear_dataset. simpl.
    destruct (session_upload_id w) as [id|]; [|exact Hinv].
    destruct (str_truthy id); simpl; [apply Hpop | exact Hinv]. }
  assert (Hsame : w' = w ->
            Forall (fun kv => df_empty (snd kv) = false) (DATASETS w') /\
            (forall df, _get_dataset w' = Some df -> df_empty df = false)).
  { intros ->. split; [exact Hinv | apply Hget; exact Hinv]. }
  unfold index in Hidx.
  destruct (method req) eqn:Hm.
  - assert (Hw : w' = w).
    { destruct (_get_dataset w) as [df|].
      + destruct (analyze_dataframe df _ _); simpl in Hidx;
          [inversion Hidx; reflexivity | discriminate].
      + inversion Hidx. reflexivity. }
    destruct (Hsame Hw) as [H1 H2].
    split; [exact H1|]. split; [exact H2|]. split; [intros _; exact Hw | exact Hreset].
  - assert (Hcase : w' = w \/
              exists df, df_empty df = false /\ w' = _set_dataset df new_id w).
    { destruct (file req) as [f|]; [|inversion Hidx; left; reflexivity].
      destruct (negb (str_truthy (filename f)));
        [inversion Hidx; left; reflexivity|].
      destruct (negb (endswith (lower (filename f)) ".csv"));
        [inversion Hidx; left; reflexivity|].
      destruct (read_csv f) as [df|]; [|inversion Hidx; left; reflexivity].
      destruct (df_empty df) eqn:He; [inversion Hidx; left; reflexivity|].
      inversion Hidx. right. exists df. split; [exact He | reflexivity]. }
    destruct Hcase as [Hw|[df [He ->]]].
    + destruct (Hsame Hw) as [H1 H2].
      split; [exact H1|]. split; [exact H2|]. split; [discriminate | exact Hreset].
    + assert (Hnew : Forall (fun kv => df_empty (snd kv) = false)
                       (DATASETS (_set_dataset df new_id w))).
      { unfold _set_dataset. simpl. apply Forall_forall. intros kv Hkv.
        apply dict_set_In in Hkv. destruct Hkv as [->|Hkv]; [exact He|].
        rewrite Forall_forall in Hinv.
        destruct (session_upload_id w) as [old|]; [|apply Hinv; exact Hkv].
        destruct (str_truthy old && dict_mem old (DATASETS w));
          [apply dict_pop_In in Hkv|]; apply Hinv; exact Hkv. }
      split; [exact Hnew|]. split; [apply Hget; exact Hnew|].
      split; [discriminate | exact Hreset].
Qed.

(** X18: a query of white space only is no query: when both search
    fields hold nothing but white space, the rendered profile has an
    empty [filtered_columns] and empty word-search fields. *)
Theorem blank_queries_search_nothing (req : request) (new_id : string)
    (w : world) (df : DataFrame) :
  method req = GET ->
  _get_dataset w = Some df ->
  well_formed df ->
  all_space (column_search req) = true ->
  all_space (word_search req) = true ->
  exists stats,
    index req new_id w = Ok (Render (Some stats) (Some (head 10 df)) "" "", w) /\
    filtered_columns stats = [] /\
    word_results stats = [] /\ word_examples stats = [] /\
    word_total_occurrences stats = 0.
Proof.
  intros Hm Hget Hwf Hcs Hws.
  exists (profile EXCLUDED_COLUMNS df "" "").
  split; [|repeat split; reflexivity].
  unfold index. rewrite Hm, Hget.
  rewrite (all_space_strip _ Hcs), (all_space_strip _ Hws).
  unfold analyze_dataframe.
  rewrite (analyze_dataframe_with_profile EXCLUDED_COLUMNS df "" "" Hwf
             (or_introl eq_refl)).
  reflexivity.
Qed.

(** X19: without a dataset a GET renders no statistics and no preview:
    this is so whenever the session has no id, or an id that [DATASETS]
    no longer holds, and in particular right after [reset]. *)
Theorem view_without_dataset (req : request) (new_id : string) (w : world) :
  method req = GET ->
  (_get_dataset w = None ->
   index req new_id w
   = Ok (Render None None (strip (column_search req)) (strip (word_search req)),
         w)) /\
  (session_upload_id w = None -> _get_dataset w = None) /\
  (forall upload_id, session_upload_id w = Some upload_id ->
     dict_get upload_id (DATASETS w) = None -> _get_dataset w = None) /\
  index req new_id (snd (reset w))
  = Ok (Render None None (strip (column_search req)) (strip (word_search req)),
        snd (reset w)).
Proof.
  intros Hm.
  assert (Hnone : forall w0, _get_dataset w0 = None ->
            index req new_id w0
            = Ok (Render None None (strip (column_search req))
                    (strip (word_search req)), w0)).
  { intros w0 H. unfold index. rewrite Hm, H. reflexivity. }
  split; [apply Hnone|]. split; [|split].
  - intros H. unfold _get_dataset. rewrite H. reflexivity.
  - intros id Hs Hd. unfold _get_dataset. rewrite Hs, Hd.
    destruct (negb (str_truthy id)); reflexivity.
  - apply Hnone. unfold reset. simpl. unfold _get_dataset, _clear_dataset.
    destruct (session_upload_id w) as [id|]; [|reflexivity].
    destruct (str_truthy id); reflexivity.
Qed.

(* ------------------------------------------------------------------ *)
(** ** More of [streamlist.py] *)

(** X20: the columns the script checks and the excluded columns it
    reports split the frame's columns: a column is in exactly one of the
    two lists, and together they are all the columns. *)
Theorem checked_and_excluded_split_columns (excluded : list string)
    (df : DataFrame) :
  NoDup excluded ->
  well_formed df ->
  Permutation
    (excluded_found excluded df
     ++ filter (fun col => negb (name_in col excluded)) (df_columns df))
    (df_columns df) /\
  (forall col, In col (excluded_found excluded df) ->
     ~ In col (filter (fun col => negb (name_in col excluded)) (df_columns df))).
Proof.
  intros Hex [[_ Hnd] _]. unfold excluded_found.
  assert (Hdisj : forall col,
            In col (filter (fun col => name_in col (df_columns df)) excluded) ->
            ~ In col (filter (fun col => negb (name_in col excluded))
                        (df_columns df))).
  { intros col H1 H2. apply filter_In in H1. apply filter_In in H2.
    destruct H1 as [H1 _]. destruct H2 as [_ H2].
    apply name_in_iff in H1. rewrite H1 in H2. discriminate. }
  split; [|exact Hdisj].
  apply NoDup_Permutation.
  - apply NoDup_app.
    + apply NoDup_filter. exact Hex.
    + apply NoDup_filter. exact Hnd.
    + exact Hdisj.
  - exact Hnd.
  - intros col. rewrite in_app_iff, !filter_In. split.
    + intros [[_ H]|[H _]]; [apply name_in_iff; exact H | exact H].
    + intros H. destruct (name_in col excluded) eqn:E.
      * left. split; [apply name_in_iff; exact E | apply name_in_iff; exact H].
      * right. split; [exact H | reflexivity].
Qed.

Lemma fold_left_invariant (A S : Type) (step : S -> A -> S) (Inv : S -> Prop)
    (l : list A) :
  (forall s x, In x l -> Inv s -> Inv (step s x)) ->
  forall s, Inv s -> Inv (fold_left step l s).
Proof.
  induction l as [|x l IH]; simpl; intros Hstep s Hs; [exact Hs|].
  apply IH.
  - intros s' y Hy. apply Hstep. right. exact Hy.
  - apply Hstep; [left; reflexivity | exact Hs].
Qed.

(** X21: the unguarded [count / len(df) * 100] of the counting loop
    never divides by zero: on a well-formed frame, with a mask as long
    as the column, the loop returns its table; every row of it has a
    count between 1 and the row count and a percentage above 0 and at
    most 100, and the total is the sum of the counts. *)
Theorem streamlit_percentage_never_raises
    (contains : list string -> list bool)
    (excluded : list string) (df : DataFrame) :
  well_formed df ->
  (forall text, length (contains text) = length text) ->
  exists table total,
    streamlit_word_table contains excluded df = Ok (table, total) /\
    Forall (fun row =>
              let '(col, count, percentage) := row in
              1 <= count <= index_len df /\
              percentage = pct count (index_len df) /\
              (0 < percentage <= 100)%Q)
      table /\
    total = sum_nat (map (fun row => snd (fst row)) table).
Proof.
  intros Hwf Hlen.
  set (n := index_len df).
  set (count_of := fun c : string * series =>
                     count_true (contains (astype_str (snd c)))).
  set (step := fun (acc : list (string * nat * Q) * nat) (c : string * series) =>
                 if 0 <? count_of c
                 then (fst acc ++ [(fst c, count_of c, pct (count_of c) n)],
                       snd acc + count_of c)
                 else acc).
  assert (Hbound : forall c, In c (columns df) -> count_of c <= n).
  { intros c Hc. unfold count_of.
    eapply Nat.le_trans; [apply count_true_le|].
    rewrite Hlen. unfold astype_str. rewrite length_map.
    rewrite (column_rectangular df c Hwf Hc). reflexivity. }
  exists (fst (fold_left step (included excluded df) ([], 0))),
         (snd (fold_left step (included excluded df) ([], 0))).
  split.
  - unfold streamlit_word_table. rewrite columns_to_check_included.
    rewrite (for_fold_ok fst _ step).
    + destruct (fold_left step (included excluded df) ([], 0)); reflexivity.
    + intros acc c Hc. apply included_In in Hc.
      rewrite (getitem_column df c Hwf Hc). simpl bind.
      unfold step. fold (count_of c).
      destruct (Nat.ltb_spec 0 (count_of c)) as [Hpos|]; [|reflexivity].
      specialize (Hbound c Hc).
      unfold truediv, pct. fold n.
      destruct (Nat.eqb_spec n 0) as [Hz|Hnz]; [lia | reflexivity].
  - apply (fold_left_invariant _ _ step
             (fun acc =>
                Forall (fun row : string * nat * Q =>
                          let '(col, count, percentage) := row in
                          1 <= count <= n /\
                          percentage = pct count n /\
                          (0 < percentage <= 100)%Q) (fst acc) /\
                snd acc = sum_nat (map (fun row => snd (fst row)) (fst acc)))).
    + intros acc c Hc [Hrows Hsum]. apply included_In in Hc.
      specialize (Hbound c Hc). unfold step.
      destruct (Nat.ltb_spec 0 (count_of c)) as [Hpos|]; [|split; assumption].
      simpl. split.
      * apply Forall_app. split; [exact Hrows|].
        constructor; [|constructor].
        split; [lia|]. split; [reflexivity|].
        split; [apply pct_pos; lia | apply pct_bounds; exact Hbound].
      * rewrite map_app, Hsum. simpl.
        clear. induction (map _ (fst acc)) as [|x l IH]; simpl; lia.
    + split; [constructor | reflexivity].
Qed.

Lemma ascii_case_eqb (a b : ascii) :
  Ascii.eqb (ascii_lower a) (ascii_lower b)
  = Ascii.eqb (ascii_upper a) (ascii_upper b).
Proof.
  apply Bool.eq_iff_eq_true. rewrite !Ascii.eqb_eq. split; intros H.
  - rewrite <- (ascii_upper_lower a), <- (ascii_upper_lower b), H. reflexivity.
  - rewrite <- (ascii_lower_upper a), <- (ascii_lower_upper b), H. reflexivity.
Qed.

Lemma plain_pattern_no_dot (c : ascii) (pat : string) :
  plain_pattern (String c pat) = true ->
  Ascii.eqb c "." = false /\ plain_pattern pat = true.
Proof.
  simpl. intros H. apply andb_true_iff in H. destruct H as [Hc Hp].
  split; [|exact Hp].
  apply negb_true_iff in Hc. apply orb_false_iff in Hc. tauto.
Qed.

Lemma re_match_plain (pat x : string) :
  plain_pattern pat = true ->
  re_match pat x = startswith (upper x) (upper pat).
Proof.
  revert x. induction pat as [|p pat IH]; intros x Hplain; [reflexivity|].
  apply plain_pattern_no_dot in Hplain. destruct Hplain as [Hdot Hplain].
  destruct x as [|c x]; [reflexivity|].
  simpl. rewrite Hdot, (IH x Hplain), ascii_case_eqb. reflexivity.
Qed.

(** On a plain word the regular-expression search and the literal
    search agree. *)
Lemma re_search_plain (pat x : string) :
  plain_pattern pat = true ->
  re_search pat x = str_in (upper pat) (upper x).
Proof.
  intros Hplain. induction x as [|c x IH]; simpl.
  - rewrite (re_match_plain pat "" Hplain). reflexivity.
  - rewrite (re_match_plain pat (String c x) Hplain), IH. reflexivity.
Qed.

Lemma regex_mask_plain (word_query : string) (s : series) :
  ascii_exact -> is_ascii word_query = true ->
  Forall (fun v => is_ascii (cell_str v) = true) (values s) ->
  plain_pattern word_query = true ->
  str_contains_regex_nocase word_query (astype_str s)
  = match_mask word_query s.
Proof.
  intros [Hlow Hup] Hw Hcells Hplain.
  unfold str_contains_regex_nocase, astype_str, match_mask, cell_matches.
  rewrite map_map. apply map_ext_in. intros c Hc.
  rewrite Forall_forall in Hcells.
  rewrite (Hlow _ Hw), (Hup _ (Hcells c Hc)).
  rewrite (Hup (lower word_query)) by (rewrite is_ascii_lower; exact Hw).
  rewrite upper_lower. apply re_search_plain. exact Hplain.
Qed.

Lemma any_true_count (mask : list bool) :
  existsb (fun b => b) mask = (0 <? count_true mask).
Proof.
  unfold count_true. induction mask as [|b mask IH]; [reflexivity|].
  simpl. destruct b; simpl; [reflexivity | exact IH].
Qed.

(** X22: on ASCII text, integer row labels and a query that is a plain
    word the two programs pick the same examples: the example rows of
    [streamlist.py] are the [word_examples] of [analyze_dataframe], in
    the same order, with each value cut to its first 100 characters. *)
Theorem streamlit_examples_agree_on_plain_words (df : DataFrame)
    (column_query word_query : string) :
  ascii_exact ->
  well_formed df ->
  int_labels df ->
  ascii_cells df ->
  is_ascii word_query = true ->
  word_query <> "" ->
  plain_pattern word_query = true ->
  exists p,
    analyze_dataframe df column_query word_query = Ok p /\
    example_rows (str_contains_regex_nocase word_query) EXCLUDED_COLUMNS df
    = Ok (map (fun e =>
                 WordExample.mk (WordExample.name e) (WordExample.row_number e)
                   (str_slice_to 100 (WordExample.value e)))
            (word_examples p)).
Proof.
  intros Hexact Hwf Hint Hcells Hw Hq Hplain.
  exists (profile EXCLUDED_COLUMNS df column_query word_query).
  split; [apply analyze_dataframe_with_profile; [exact Hwf | right; exact Hint]|].
  unfold profile. cbn [word_examples].
  apply str_truthy_iff in Hq. rewrite Hq.
  set (cut := fun e => WordExample.mk (WordExample.name e)
                         (WordExample.row_number e)
                         (str_slice_to 100 (WordExample.value e))).
  unfold example_rows. rewrite columns_to_check_included.
  rewrite (for_fold_ok fst _
             (fun acc c => acc ++ map cut (column_examples df word_query c))).
  - cbn [bind]. f_equal. rewrite <- firstn_map. f_equal.
    generalize (included EXCLUDED_COLUMNS df) as l. intros l.
    assert (Hgen : forall acc,
              fold_left
                (fun acc c => acc ++ map cut (column_examples df word_query c))
                l acc
              = acc ++ map cut (flat_map (column_examples df word_query) l)).
    { induction l as [|c l IH]; intros acc; simpl.
      - rewrite app_nil_r. reflexivity.
      - rewrite IH, map_app, app_assoc. reflexivity. }
    apply (Hgen []).
  - intros acc c Hc. apply included_In in Hc.
    rewrite (getitem_column df c Hwf Hc). cbn [bind].
    assert (Hcol : Forall (fun v => is_ascii (cell_str v) = true)
                     (values (snd c))).
    { unfold ascii_cells in Hcells. rewrite Forall_forall in Hcells.
      apply Hcells. exact Hc. }
    rewrite (regex_mask_plain word_query (snd c) Hexact Hw Hcol Hplain).
    rewrite any_true_count. fold (match_count word_query (snd c)).
    destruct (Nat.ltb_spec 0 (match_count word_query (snd c))) as [Hpos|Hz].
    + rewrite (matched_labels df word_query c Hwf Hc), for_each_map.
      rewrite (for_each_ok _
                 (fun i => WordExample.mk (fst c)
                             (label_number (row_label df i) + 1)%Z
                             (str_slice_to 100
                                (cell_str (nth i (values (snd c)) CNaN))))).
      * cbn [bind]. unfold column_examples. rewrite map_map. reflexivity.
      * intros i Hi.
        pose proof (matched_position df word_query c i Hwf Hc Hi) as Hlt.
        destruct (int_labels_row df i Hint Hlt) as [z Hz]. rewrite Hz.
        cbn [label_succ bind].
        rewrite <- Hz, (loc_row df c i Hwf Hc Hlt), Hz. reflexivity.
    + rewrite column_examples_none by lia. rewrite app_nil_r. reflexivity.
Qed.

(* ------------------------------------------------------------------ *)
(** ** What the queries cannot touch *)

(** X24: the queries only reach their own fields.  Two calls on the
    same frame agree on every field but [filtered_columns] and the three
    word-search fields, whatever the queries; they agree on
    [filtered_columns] when the column queries are equal, and on the
    word-search fields when the word queries are equal. *)
Theorem queries_reach_only_their_fields (df : DataFrame)
    (cq1 wq1 cq2 wq2 : string) (p1 p2 : DatasetStats) :
  well_formed df ->
  analyze_dataframe df cq1 wq1 = Ok p1 ->
  analyze_dataframe df cq2 wq2 = Ok p2 ->
  (num_rows p1 = num_rows p2 /\ num_columns p1 = num_columns p2 /\
   num_duplicates p1 = num_duplicates p2 /\
   total_missing p1 = total_missing p2 /\
   missing_percentage p1 = missing_percentage p2 /\
   complete_columns_count p1 = complete_columns_count p2 /\
   complete_columns p1 = complete_columns p2 /\
   all_columns p1 = all_columns p2 /\
   column_names p1 = column_names p2 /\ dtypes p1 = dtypes p2 /\
   missing_breakdown p1 = missing_breakdown p2) /\
  (cq1 = cq2 -> filtered_columns p1 = filtered_columns p2) /\
  (wq1 = wq2 ->
   word_results p1 = word_results p2 /\
   word_examples p1 = word_examples p2 /\
   word_total_occurrences p1 = word_total_occurrences p2).
Proof.
  intros Hwf H1 H2.
  apply (analyze_dataframe_with_inv _ _ _ _ _ Hwf) in H1.
  apply (analyze_dataframe_with_inv _ _ _ _ _ Hwf) in H2.
  subst p1 p2. unfold profile.
  cbn [num_rows num_columns num_duplicates total_missing missing_percentage
       complete_columns_count complete_columns all_columns filtered_columns
       column_names dtypes missing_breakdown word_results word_examples
       word_total_occurrences].
  split; [repeat split; reflexivity|].
  split; [intros ->; reflexivity | intros ->; repeat split; reflexivity].
Qed.

End Runtime.

(* ------------------------------------------------------------------ *)
(** ** The theorems at work

    The frames, queries and file names below are ASCII text, on which
    [lower] and [upper] are the runtime's [str.lower] and [str.upper]. *)

Lemma ascii_runtime : ascii_exact lower upper.
Proof. split; intros s _; reflexivity. Qed.

Lemma scenario_df_wf : well_formed scenario_df.
Proof. wf_by_computation. Qed.

Lemma one_row_df_wf : well_formed one_row_df.
Proof. wf_by_computation. Qed.

Lemma no_rows_df_wf : well_formed no_rows_df.
Proof. wf_by_computation. Qed.

Lemma ties_df_wf : well_formed ties_df.
Proof. wf_by_computation. Qed.

Lemma many_matches_df_wf : well_formed many_matches_df.
Proof. wf_by_computation. Qed.

Lemma repeats_df_wf : well_formed repeats_df.
Proof. wf_by_computation. Qed.

Lemma long_cell_df_wf : well_formed long_cell_df.
Proof. wf_by_computation. Qed.

Lemma text_index_df_wf : well_formed text_index_df.
Proof. wf_by_computation. Qed.

Lemma sparse_index_df_wf : well_formed sparse_index_df.
Proof. wf_by_computation. Qed.


Lemma scenario_df_int_labels : int_labels scenario_df.
Proof. int_labels_by_computation. Qed.

Lemma long_cell_df_int_labels : int_labels long_cell_df.
Proof. int_labels_by_computation. Qed.

Lemma long_cell_df_ascii : ascii_cells long_cell_df.
Proof. unfold ascii_cells. simpl. repeat constructor. Qed.

Lemma percentages_in_range_witness :
  exists p, analyze_dataframe lower upper scenario_df "" "" = Ok p /\
    (0 <= missing_percentage p <= 100)%Q.
Proof.
  eexists. split; [reflexivity|].
  apply (percentages_in_range lower upper scenario_df "" "" _
           scenario_df_wf eq_refl).
Defined.

(** C1 (as stated) fails: with one row and nothing missing,
    [missing_percentage] is 0 although N = 1; with one row and an
    all-NaN column, that column's [completion_rate] is 0 although N = 1. *)
Lemma percentages_zero_with_rows :
  (exists p, analyze_dataframe lower upper one_row_df "" "" = Ok p /\
             num_rows p = 1 /\ (missing_percentage p == 0)%Q) /\
  (exists p st, analyze_dataframe lower upper all_nan_df "" "" = Ok p /\
                num_rows p = 1 /\ all_columns p = [st] /\
                (ColumnStatus.completion_rate st == 0)%Q).
Proof.
  split.
  - eexists. split; [reflexivity|]. split; reflexivity.
  - eexists. eexists. split; [reflexivity|].
    split; [reflexivity|]. split; reflexivity.
Qed.

(** C7 fails: the row number of an example is [int(idx) + 1] on the
    label of the row, and [int] raises [ValueError] on a label that is
    not a number.  The frame is what [read_csv] makes of a file whose
    rows have one field more than its header; it is well formed and not
    empty, the upload route stores it, and the next view with a word
    query that matches a cell raises.  Without a word query the same
    frame is profiled. *)
Theorem analyze_dataframe_raises_on_text_label :
  well_formed text_index_df /\
  df_empty text_index_df = false /\
  analyze_dataframe lower upper text_index_df "" "1" = Raise ValueError /\
  (exists p, analyze_dataframe lower upper text_index_df "" "" = Ok p) /\
  (exists w',
     index lower upper
       (mkRequest POST (Some (mkUpload "table.csv" (Some text_index_df))) "" "")
       "id-1" fresh_world
     = Ok (Redirect UploadedAndAnalyzed, w') /\
     index lower upper (mkRequest GET None "" "1") "id-2" w'
     = Raise ValueError).
Proof.
  split; [exact text_index_df_wf|].
  split; [reflexivity|].
  split; [vm_compute; reflexivity|].
  split; [eexists; vm_compute; reflexivity|].
  eexists. split; vm_compute; reflexivity.
Qed.


(** Integer labels that are not the positions give the row numbers. *)
Example row_numbers_follow_labels :
  exists p, analyze_dataframe lower upper sparse_index_df "" "y" = Ok p /\
    word_examples p = [WordExample.mk "a" 9%Z "y"].
Proof. eexists. split; reflexivity. Qed.

Lemma included_missing_le_total_witness :
  exists p, analyze_dataframe_with lower upper [] scenario_df "" "" = Ok p /\
    total_missing p = 1 /\
    sum_nat (map ColumnStatus.missing_count (all_columns p)) = total_missing p.
Proof.
  eexists. split; [reflexivity|].
  destruct (included_missing_le_total lower upper [] scenario_df "" "" _
              scenario_df_wf eq_refl) as [Htotal [_ [_ [Heq _]]]].
  split; [exact Htotal | apply Heq; reflexivity].
Defined.

Lemma profile_fields_consistent_witness :
  exists p, analyze_dataframe lower upper scenario_df "" "" = Ok p /\
    complete_columns p = ["B"] /\ complete_columns_count p = 1.
Proof.
  eexists. split; [reflexivity|].
  destruct (profile_fields_consistent lower upper scenario_df "" "" _
              scenario_df_wf eq_refl)
    as [_ [Hcc [Hn _]]].
  split; [exact Hcc | exact Hn].
Defined.


Example filtered_columns_empty_query :
  exists p, analyze_dataframe lower upper scenario_df "" "" = Ok p /\
    filtered_columns p = [].
Proof. eexists. split; reflexivity. Qed.


Lemma word_match_is_literal_substring_witness :
  exists p, analyze_dataframe lower upper scenario_df "" "X" = Ok p /\
    map (fun r => (WordResult.name r, WordResult.count r)) (word_results p)
    = [("B", 2)] /\
    (forall c, is_ascii (cell_str c) = true ->
       (cell_matches lower upper "X" c = true
        <-> ci_substring "X" (cell_str c))).
Proof.
  destruct (analyze_dataframe lower upper scenario_df "" "X") as [p|e] eqn:E;
    [|vm_compute in E; discriminate E].
  exists p.
  destruct (word_match_is_literal_substring lower upper scenario_df "" "X" p
              scenario_df_wf) as [_ [Hcell _]];
    [discriminate | exact E |].
  split; [reflexivity|].
  split; [vm_compute in E; injection E as <-; reflexivity|].
  apply (Hcell ascii_runtime eq_refl).
Defined.

(** The pattern is taken literally, and may sit inside a word. *)
Example dot_is_not_a_wildcard :
  cell_matches lower upper "." (CStr "abc") = false.
Proof. reflexivity. Qed.

Example literal_dot_found :
  cell_matches lower upper "a.C" (CStr "xA.cy") = true.
Proof. reflexivity. Qed.

Example inside_a_word :
  cell_matches lower upper "at" (CStr "Category") = true.
Proof. reflexivity. Qed.

Example nan_cell_searchable : cell_matches lower upper "NA" CNaN = true.
Proof. reflexivity. Qed.

Example number_cell_searchable :
  cell_matches lower upper "12" (CInt (-3120)%Z) = true.
Proof. reflexivity. Qed.

Lemma missing_breakdown_sorted_witness :
  exists p, analyze_dataframe lower upper ties_df "" "" = Ok p /\
    NoDup (map MissingBreakdown.name (missing_breakdown p)).
Proof.
  eexists. split; [reflexivity|].
  apply (missing_breakdown_sorted lower upper ties_df "" "" _ ties_df_wf
           eq_refl).
Defined.

Example missing_breakdown_ties :
  exists p, analyze_dataframe lower upper ties_df "" "" = Ok p /\
    map MissingBreakdown.name (missing_breakdown p)
    = ["DeletedAt"; "Name"; "City"].
Proof. eexists. split; reflexivity. Qed.

Lemma word_examples_capped_witness :
  exists p, analyze_dataframe lower upper many_matches_df "" "x" = Ok p /\
    length (word_examples p) <= 10 /\
    word_total_occurrences p = sum_nat (map WordResult.count (word_results p)).
Proof.
  destruct (analyze_dataframe lower upper many_matches_df "" "x")
    as [p|e] eqn:E; [|vm_compute in E; discriminate E].
  exists p. split; [reflexivity|].
  destruct (word_examples_capped lower upper many_matches_df "" "x" p
              many_matches_df_wf)
    as [Hlen [_ [_ [_ [_ [_ Hsum]]]]]]; [discriminate | exact E |].
  split; [exact Hlen | exact Hsum].
Defined.

Example word_examples_order :
  exists p, analyze_dataframe lower upper many_matches_df "" "x" = Ok p /\
    map (fun e => (WordExample.name e, WordExample.row_number e))
      (word_examples p)
    = [ ("P", 1%Z); ("P", 2%Z); ("P", 3%Z); ("Q", 1%Z); ("Q", 4%Z);
        ("R", 1%Z); ("R", 2%Z); ("R", 3%Z); ("S", 1%Z); ("S", 2%Z) ] /\
    map (fun r => (WordResult.name r, WordResult.count r)) (word_results p)
    = [ ("P", 4); ("R", 4); ("S", 4); ("Q", 2) ] /\
    word_total_occurrences p = 14.
Proof. eexists. split; [reflexivity|]. repeat split; reflexivity. Qed.

Lemma num_duplicates_counts_repeats_witness :
  exists p, analyze_dataframe lower upper repeats_df "" "" = Ok p /\
    exists flag : nat -> bool,
      (forall i, i < 4 ->
         (flag i = true
          <-> exists j, j < i /\
                Forall2 same_value (row_at repeats_df j) (row_at repeats_df i))) /\
      num_duplicates p = length (filter flag (seq 0 4)).
Proof.
  destruct (analyze_dataframe lower upper repeats_df "" "") as [p|e] eqn:E;
    [|vm_compute in E; discriminate E].
  exists p. split; [reflexivity|].
  destruct (num_duplicates_counts_repeats lower upper repeats_df "" "" p
              repeats_df_wf E)
    as [Hflag _].
  apply Hflag. discriminate.
Defined.

(** The zeros of rows 0 and 2 differ in sign and text, not in value. *)
Example num_duplicates_repeats_df :
  exists p, analyze_dataframe lower upper repeats_df "" "" = Ok p /\
    num_duplicates p = 2.
Proof. eexists. split; reflexivity. Qed.

(** C2 fails in [analyze_dataframe]: the example value is the whole
    stringified cell, here 101 characters. *)
Theorem example_value_not_capped :
  well_formed long_cell_df /\
  exists p e, analyze_dataframe lower upper long_cell_df "" "a" = Ok p /\
    word_examples p = [e] /\
    WordExample.value e = repeat_char "a" 101 /\
    String.length (WordExample.value e) = 101.
Proof.
  split; [exact long_cell_df_wf|].
  eexists. eexists. split; [vm_compute; reflexivity|].
  split; [reflexivity|]. split; reflexivity.
Qed.

Example example_rows_long_cell :
  exists rows e,
    example_rows (str_contains_nocase upper "a") EXCLUDED_COLUMNS long_cell_df
    = Ok rows /\
    rows = [e] /\ String.length (WordExample.value e) = 100.
Proof. eexists. eexists. split; [vm_compute; reflexivity|]. split; reflexivity. Qed.

(** C6 fails in [streamlist.py]: its [str.contains] call leaves
    [regex=True], so the query "." selects the cell "7", which does not
    contain a dot; [analyze_dataframe], which passes [regex=False],
    reports nothing for the same frame and query. *)
Theorem streamlit_search_reads_regex :
  well_formed one_row_df /\
  streamlit_word_results (str_contains_regex_nocase ".") EXCLUDED_COLUMNS
    one_row_df = Ok ([("A", 1)], 1) /\
  ~ ci_substring "." (cell_str (CInt 7)) /\
  exists p, analyze_dataframe lower upper one_row_df "" "." = Ok p /\
    word_results p = [] /\ word_total_occurrences p = 0.
Proof.
  split; [exact one_row_df_wf|].
  split; [reflexivity|].
  split.
  - intros H. apply upper_search in H. discriminate H.
  - eexists. split; [reflexivity|]. split; reflexivity.
Qed.

Lemma queries_ignore_case_witness :
  analyze_dataframe lower upper scenario_df (upper "b") (upper "x")
  = analyze_dataframe lower upper scenario_df "b" "x".
Proof.
  apply (queries_ignore_case lower upper scenario_df "b" "x" ascii_runtime
           eq_refl eq_refl).
Defined.

Lemma excluded_columns_stay_out_witness :
  exists p, analyze_dataframe lower upper ties_df "de" "nan" = Ok p /\
    ~ In "DeletedAt" (map WordResult.name (word_results p)) /\
    In "DeletedAt" (column_names p).
Proof.
  destruct (analyze_dataframe lower upper ties_df "de" "nan") as [p|e] eqn:E;
    [|vm_compute in E; discriminate E].
  exists p. split; [reflexivity|].
  destruct (excluded_columns_stay_out lower upper ties_df "de" "nan" p
              ties_df_wf E)
    as [Hout [Hnames _]].
  split.
  - apply (Hout "DeletedAt"). simpl. tauto.
  - rewrite Hnames. simpl. tauto.
Defined.

Lemma word_results_sorted_witness :
  exists p, analyze_dataframe lower upper many_matches_df "" "x" = Ok p /\
    NoDup (map WordResult.name (word_results p)).
Proof.
  destruct (analyze_dataframe lower upper many_matches_df "" "x")
    as [p|e] eqn:E; [|vm_compute in E; discriminate E].
  exists p. split; [reflexivity|].
  destruct (word_results_sorted lower upper many_matches_df "" "x" p
              many_matches_df_wf)
    as [_ [Hnd _]]; [discriminate | exact E | exact Hnd].
Defined.


Lemma word_fields_empty_together_witness :
  exists p, analyze_dataframe lower upper scenario_df "" "zzz" = Ok p /\
    (word_results p = [] <-> word_examples p = []).
Proof.
  destruct (analyze_dataframe lower upper scenario_df "" "zzz")
    as [p|e] eqn:E; [|vm_compute in E; discriminate E].
  exists p. split; [reflexivity|].
  apply (word_fields_empty_together lower upper scenario_df "" "zzz" p
           scenario_df_wf E).
Defined.

Lemma missing_breakdown_accounts_for_total_witness :
  exists p, analyze_dataframe lower upper ties_df "" "" = Ok p /\
    sum_nat (map MissingBreakdown.missing_count (missing_breakdown p))
    = total_missing p.
Proof.
  eexists. split; [reflexivity|].
  apply (missing_breakdown_accounts_for_total lower upper ties_df "" "" _
           ties_df_wf eq_refl).
Defined.

Lemma word_result_bounds_witness :
  exists p, analyze_dataframe lower upper many_matches_df "" "x" = Ok p /\
    word_total_occurrences p <= num_rows p * length (all_columns p).
Proof.
  eexists. split; [reflexivity|].
  apply (word_result_bounds lower upper many_matches_df "" "x" _
           many_matches_df_wf eq_refl).
Defined.

Lemma duplicates_and_distinct_rows_witness :
  exists p, analyze_dataframe lower upper repeats_df "" "" = Ok p /\
    exists firsts : list nat,
      NoDup firsts /\
      (forall i j, In i firsts -> In j firsts ->
         Forall2 same_value (row_at repeats_df i) (row_at repeats_df j) ->
         i = j) /\
      num_duplicates p + length firsts = num_rows p.
Proof.
  destruct (analyze_dataframe lower upper repeats_df "" "") as [p|e] eqn:E;
    [|vm_compute in E; discriminate E].
  exists p. split; [reflexivity|].
  destruct (duplicates_and_distinct_rows lower upper repeats_df "" "" p
              repeats_df_wf)
    as [d [Hd [_ [Hdiff [_ Hsum]]]]]; [discriminate | exact E |].
  exists d. split; [exact Hd|]. split; [exact Hdiff | exact Hsum].
Defined.

Lemma set_then_get_dataset_witness :
  _get_dataset (_set_dataset scenario_df "id-1" (mkWorld (Some "id-0") [("id-0", one_row_df)]))
  = Some scenario_df.
Proof.
  apply (set_then_get_dataset scenario_df "id-1"). discriminate.
Defined.

Lemma set_dataset_replaces_old_witness :
  dict_get "id-0"
    (DATASETS (_set_dataset scenario_df "id-1"
                 (mkWorld (Some "id-0") [("id-0", one_row_df)]))) = None.
Proof.
  apply (set_dataset_replaces_old scenario_df "id-1" "id-0"
           (mkWorld (Some "id-0") [("id-0", one_row_df)]));
    [reflexivity | discriminate | discriminate].
Defined.

Lemma clear_dataset_forgets_witness :
  dict_get "id-0"
    (DATASETS (_clear_dataset (mkWorld (Some "id-0") [("id-0", one_row_df)])))
  = None.
Proof.
  destruct (clear_dataset_forgets (mkWorld (Some "id-0") [("id-0", one_row_df)]))
    as [_ [_ [Hgone _]]].
  apply Hgone; [reflexivity | discriminate].
Defined.

Example strip_examples :
  strip "  Book Number	 " = "Book Number" /\ strip "   " = "" /\ strip "" = "".
Proof. repeat split; reflexivity. Qed.

Lemma head_keeps_first_rows_witness :
  index_len (head 2 scenario_df) = 2 /\
  row_at (head 2 scenario_df) 1 = row_at scenario_df 1.
Proof.
  destruct (head_keeps_first_rows 2 scenario_df scenario_df_wf)
    as [_ [Hlen [_ [_ Hrows]]]].
  split; [exact Hlen | apply Hrows; simpl; lia].
Defined.

Lemma post_stores_only_valid_csv_witness :
  exists w', index lower upper post_csv "id-1" fresh_world
             = Ok (Redirect UploadedAndAnalyzed, w').
Proof.
  destruct (post_stores_only_valid_csv lower upper post_csv "id-1" fresh_world
              eq_refl)
    as [m [w' [Hidx [Hiff _]]]].
  assert (Hm : m = UploadedAndAnalyzed).
  { apply Hiff. exists csv_upload, scenario_df, "Report", ".CSV".
    repeat split; reflexivity. }
  subst m. exists w'. exact Hidx.
Defined.

Lemma upload_then_view_witness :
  exists w1 stats,
    index lower upper post_csv "id-1" fresh_world
    = Ok (Redirect UploadedAndAnalyzed, w1) /\
    analyze_dataframe lower upper scenario_df "" "" = Ok stats /\
    index lower upper get_blank "id-2" w1
    = Ok (Render (Some stats) (Some (head 10 scenario_df)) "" "", w1).
Proof.
  apply (upload_then_view lower upper scenario_df "Report.CSV" "id-1" "id-2"
           post_csv get_blank fresh_world scenario_df_wf
           scenario_df_int_labels);
    try reflexivity.
  discriminate.
Defined.

Lemma stored_frames_never_empty_witness :
  exists w', index lower upper post_csv "id-1" fresh_world
             = Ok (Redirect UploadedAndAnalyzed, w') /\
    forall df, _get_dataset w' = Some df -> df_empty df = false.
Proof.
  eexists. split; [reflexivity|].
  apply (stored_frames_never_empty lower upper post_csv "id-1" fresh_world _
           (Redirect UploadedAndAnalyzed)).
  - constructor.
  - reflexivity.
Defined.

Lemma blank_queries_search_nothing_witness :
  exists stats,
    index lower upper get_blank "id-2"
      (mkWorld (Some "id-1") [("id-1", scenario_df)])
    = Ok (Render (Some stats) (Some (head 10 scenario_df)) "" "",
          mkWorld (Some "id-1") [("id-1", scenario_df)]) /\
    filtered_columns stats = [].
Proof.
  destruct (blank_queries_search_nothing lower upper get_blank "id-2"
              (mkWorld (Some "id-1") [("id-1", scenario_df)]) scenario_df
              eq_refl eq_refl scenario_df_wf eq_refl eq_refl)
    as [stats [Hidx [Hf _]]].
  exists stats. split; [exact Hidx | exact Hf].
Defined.

Lemma view_without_dataset_witness :
  index lower upper get_blank "id-2"
    (snd (reset (mkWorld (Some "id-1") [("id-1", scenario_df)])))
  = Ok (Render None None "" "", mkWorld None []).
Proof.
  apply (view_without_dataset lower upper get_blank "id-2"
           (mkWorld (Some "id-1") [("id-1", scenario_df)]) eq_refl).
Defined.

Lemma EXCLUDED_COLUMNS_NoDup : NoDup EXCLUDED_COLUMNS.
Proof.
  unfold EXCLUDED_COLUMNS.
  repeat (constructor; [simpl; intuition discriminate|]). constructor.
Qed.

Lemma checked_and_excluded_split_columns_witness :
  Permutation
    (excluded_found EXCLUDED_COLUMNS ties_df
     ++ filter (fun col => negb (name_in col EXCLUDED_COLUMNS))
          (df_columns ties_df))
    (df_columns ties_df).
Proof.
  apply (checked_and_excluded_split_columns EXCLUDED_COLUMNS ties_df
           EXCLUDED_COLUMNS_NoDup ties_df_wf).
Defined.

Lemma streamlit_percentage_never_raises_witness :
  exists table total,
    streamlit_word_table (str_contains_regex_nocase "x") EXCLUDED_COLUMNS
      scenario_df = Ok (table, total) /\
    total = sum_nat (map (fun row => snd (fst row)) table).
Proof.
  destruct (streamlit_percentage_never_raises (str_contains_regex_nocase "x")
              EXCLUDED_COLUMNS scenario_df scenario_df_wf)
    as [table [total [Htab [_ Hsum]]]].
  - intros text. unfold str_contains_regex_nocase. apply length_map.
  - exists table, total. split; [exact Htab | exact Hsum].
Defined.

Lemma streamlit_examples_agree_on_plain_words_witness :
  exists p,
    analyze_dataframe lower upper long_cell_df "" "aa" = Ok p /\
    example_rows (str_contains_regex_nocase "aa") EXCLUDED_COLUMNS long_cell_df
    = Ok (map (fun e =>
                 WordExample.mk (WordExample.name e) (WordExample.row_number e)
                   (str_slice_to 100 (WordExample.value e)))
            (word_examples p)).
Proof.
  apply (streamlit_examples_agree_on_plain_words lower upper long_cell_df
           "" "aa" ascii_runtime long_cell_df_wf long_cell_df_int_labels
           long_cell_df_ascii eq_refl);
    [discriminate | reflexivity].
Defined.


Lemma queries_reach_only_their_fields_witness :
  exists p1 p2,
    analyze_dataframe lower upper scenario_df "a" "x" = Ok p1 /\
    analyze_dataframe lower upper scenario_df "b" "y" = Ok p2 /\
    all_columns p1 = all_columns p2 /\
    missing_breakdown p1 = missing_breakdown p2.
Proof.
  destruct (analyze_dataframe lower upper scenario_df "a" "x")
    as [p1|e] eqn:E1; [|vm_compute in E1; discriminate E1].
  destruct (analyze_dataframe lower upper scenario_df "b" "y")
    as [p2|e] eqn:E2; [|vm_compute in E2; discriminate E2].
  exists p1, p2. split; [reflexivity|]. split; [reflexivity|].
  destruct (queries_reach_only_their_fields lower upper scenario_df
              "a" "x" "b" "y" p1 p2 scenario_df_wf E1 E2) as [Hbase _].
  split; [apply Hbase | apply Hbase].
Defined.
